(** * useEmotionDetection: a shallow embedding of the emotion-detection hook

    Source: src/components/emotion-detection/useEmotionDetection.tsx

    The hook is modelled by explicit state passing.  One [State] value holds
    - the React state cells ([useState]),
    - the mutable refs ([useRef]),
    - the part of the browser the hook acts on (timers, media streams,
      abort controllers, toasts and the console).

    Conventions.
    - A state setter is applied at once, functional updaters
      ([setX(prev => ...)]) read the cell they update.
    - React state read through a closure ([isAnalyzing], [isProcessing],
      [currentEmotion], [micPermission]) is taken from a [Closure], the
      snapshot of the render that created the function; refs are always read
      from the live [State].
    - [Date.now()] is an argument in milliseconds; every [Math.random()] draw
      is an argument, a rational number expected in [0, 1).  JavaScript
      numbers that are not integers (scores) are rationals.
    - An [async] function is cut at its [await]: the part before it and the
      continuation are separate functions, so that other operations can run
      in between.
    - [drawImage] and [toDataURL] are assumed not to throw; the captured image
      itself is not represented, the classifier's answer is an argument.
      Playback of the video element ([onloadedmetadata], [play]) is not
      represented. *)

From Stdlib Require Import ZArith QArith Qround List String Bool Lia Lqa.
Import ListNotations.

Local Open Scope Z_scope.
Local Open Scope string_scope.
Local Open Scope list_scope.

(** ** Data model *)

(** [{emotion: string, timestamp: number, score: number}] *)
Record ClassificationEvent := mkEvent {
  emotion : string;
  timestamp : Z;
  score : Q
}.

(** The video element behind [videoRef]; only [srcObject] is used. *)
Record Video := mkVideo { srcObject : option Z }.

(** The canvas behind [canvasRef]; [getContext('2d')] may answer [null]. *)
Record Canvas := mkCanvas { has2dContext : bool }.

Inductive Toast :=
| toast_error (msg : string)
| toast_success (msg : string)
| toast_info (msg : string).

Inductive LogArg :=
| ArgStr (s : string)
| ArgNum (z : Z)
| ArgEvent (e : string) (confidence : Q)
| ArgError.

Inductive LogLevel := LevelLog | LevelError.

Record LogEntry := mkLog { level : LogLevel; text : string; args : list LogArg }.

(** What a pending [window.setTimeout] will run. *)
Inductive TimeoutAction :=
| HidePopup        (* the callback of showEmotionalSupportPopup *)
| FirstCapture.    (* the callback of startAnalysis *)

Record Timeout := mkTimeout { handle : Z; due : Z; action : TimeoutAction }.

(** [useState] cells. *)
Record ReactState := mkReact {
  cameraPermission : option bool;
  micPermission : option bool;
  isAnalyzing : bool;
  currentEmotion : option string;
  emotionHistory : list ClassificationEvent;
  showInfo : bool;
  stressLevel : Z;
  engagementLevel : Z;
  focusLevel : Z;
  lastDetectionTime : Z;
  showEmotionPopup : bool;
  popupEmotion : option string;
  timerCount : Z;
  isProcessing : bool
}.

(** [useRef] cells. *)
Record Refs := mkRefs {
  timerIntervalRef : option Z;
  videoRef : option Video;
  canvasRef : option Canvas;
  mediaStreamRef : option Z;
  popupTimeoutRef : option Z;
  lastApiCallTimeRef : Z;
  abortControllerRef : option Z
}.

(** The browser as far as the hook touches it.  Timer handles and abort
    controllers are numbered from [nextHandle]; a media stream is named by a
    number and has one track. *)
Record Browser := mkBrowser {
  nextHandle : Z;
  timeouts : list Timeout;
  intervals : list Z;
  stoppedStreams : list Z;
  abortedControllers : list Z;
  toasts : list Toast;
  console : list LogEntry
}.

Record State := mkState {
  react : ReactState;
  refs : Refs;
  browser : Browser
}.

(** The React state a function sees through its closure. *)
Record Closure := mkClosure {
  c_micPermission : option bool;
  c_isAnalyzing : bool;
  c_currentEmotion : option string;
  c_isProcessing : bool
}.

(** The closure of the functions created by the render of state [s]. *)
Definition render (s : State) : Closure :=
  {| c_micPermission := micPermission (react s);
     c_isAnalyzing := isAnalyzing (react s);
     c_currentEmotion := currentEmotion (react s);
     c_isProcessing := isProcessing (react s) |}.

(** The state of a freshly mounted hook; the host may already have attached
    the video and canvas elements. *)
Definition initialState (v : option Video) (c : option Canvas) : State :=
  {| react := {| cameraPermission := None; micPermission := None;
                 isAnalyzing := false; currentEmotion := None;
                 emotionHistory := []; showInfo := false;
                 stressLevel := 0; engagementLevel := 0; focusLevel := 0;
                 lastDetectionTime := 0; showEmotionPopup := false;
                 popupEmotion := None; timerCount := 3;
                 isProcessing := false |};
     refs := {| timerIntervalRef := None; videoRef := v; canvasRef := c;
                mediaStreamRef := None; popupTimeoutRef := None;
                lastApiCallTimeRef := 0; abortControllerRef := None |};
     browser := {| nextHandle := 1; timeouts := []; intervals := [];
                   stoppedStreams := []; abortedControllers := [];
                   toasts := []; console := [] |} |}.

(** ** Field updates *)

Module Upd.

Definition on_react (f : ReactState -> ReactState) (s : State) : State :=
  mkState (f (react s)) (refs s) (browser s).

Definition on_refs (f : Refs -> Refs) (s : State) : State :=
  mkState (react s) (f (refs s)) (browser s).

Definition on_browser (f : Browser -> Browser) (s : State) : State :=
  mkState (react s) (refs s) (f (browser s)).

Definition cameraPermission' v (r : ReactState) : ReactState :=
  mkReact v (micPermission r) (isAnalyzing r) (currentEmotion r)
    (emotionHistory r) (showInfo r) (stressLevel r) (engagementLevel r)
    (focusLevel r) (lastDetectionTime r) (showEmotionPopup r) (popupEmotion r)
    (timerCount r) (isProcessing r).
Definition micPermission' v (r : ReactState) : ReactState :=
  mkReact (cameraPermission r) v (isAnalyzing r) (currentEmotion r)
    (emotionHistory r) (showInfo r) (stressLevel r) (engagementLevel r)
    (focusLevel r) (lastDetectionTime r) (showEmotionPopup r) (popupEmotion r)
    (timerCount r) (isProcessing r).
Definition isAnalyzing' v (r : ReactState) : ReactState :=
  mkReact (cameraPermission r) (micPermission r) v (currentEmotion r)
    (emotionHistory r) (showInfo r) (stressLevel r) (engagementLevel r)
    (focusLevel r) (lastDetectionTime r) (showEmotionPopup r) (popupEmotion r)
    (timerCount r) (isProcessing r).
Definition currentEmotion' v (r : ReactState) : ReactState :=
  mkReact (cameraPermission r) (micPermission r) (isAnalyzing r) v
    (emotionHistory r) (showInfo r) (stressLevel r) (engagementLevel r)
    (focusLevel r) (lastDetectionTime r) (showEmotionPopup r) (popupEmotion r)
    (timerCount r) (isProcessing r).
Definition emotionHistory' v (r : ReactState) : ReactState :=
  mkReact (cameraPermission r) (micPermission r) (isAnalyzing r)
    (currentEmotion r) v (showInfo r) (stressLevel r) (engagementLevel r)
    (focusLevel r) (lastDetectionTime r) (showEmotionPopup r) (popupEmotion r)
    (timerCount r) (isProcessing r).
Definition showInfo' v (r : ReactState) : ReactState :=
  mkReact (cameraPermission r) (micPermission r) (isAnalyzing r)
    (currentEmotion r) (emotionHistory r) v (stressLevel r)
    (engagementLevel r) (focusLevel r) (lastDetectionTime r)
    (showEmotionPopup r) (popupEmotion r) (timerCount r) (isProcessing r).
Definition stressLevel' v (r : ReactState) : ReactState :=
  mkReact (cameraPermission r) (micPermission r) (isAnalyzing r)
    (currentEmotion r) (emotionHistory r) (showInfo r) v (engagementLevel r)
    (focusLevel r) (lastDetectionTime r) (showEmotionPopup r) (popupEmotion r)
    (timerCount r) (isProcessing r).
Definition engagementLevel' v (r : ReactState) : ReactState :=
  mkReact (cameraPermission r) (micPermission r) (isAnalyzing r)
    (currentEmotion r) (emotionHistory r) (showInfo r) (stressLevel r) v
    (focusLevel r) (lastDetectionTime r) (showEmotionPopup r) (popupEmotion r)
    (timerCount r) (isProcessing r).
Definition focusLevel' v (r : ReactState) : ReactState :=
  mkReact (cameraPermission r) (micPermission r) (isAnalyzing r)
    (currentEmotion r) (emotionHistory r) (showInfo r) (stressLevel r)
    (engagementLevel r) v (lastDetectionTime r) (showEmotionPopup r)
    (popupEmotion r) (timerCount r) (isProcessing r).
Definition lastDetectionTime' v (r : ReactState) : ReactState :=
  mkReact (cameraPermission r) (micPermission r) (isAnalyzing r)
    (currentEmotion r) (emotionHistory r) (showInfo r) (stressLevel r)
    (engagementLevel r) (focusLevel r) v (showEmotionPopup r) (popupEmotion r)
    (timerCount r) (isProcessing r).
Definition showEmotionPopup' v (r : ReactState) : ReactState :=
  mkReact (cameraPermission r) (micPermission r) (isAnalyzing r)
    (currentEmotion r) (emotionHistory r) (showInfo r) (stressLevel r)
    (engagementLevel r) (focusLevel r) (lastDetectionTime r) v
    (popupEmotion r) (timerCount r) (isProcessing r).
Definition popupEmotion' v (r : ReactState) : ReactState :=
  mkReact (cameraPermission r) (micPermission r) (isAnalyzing r)
    (currentEmotion r) (emotionHistory r) (showInfo r) (stressLevel r)
    (engagementLevel r) (focusLevel r) (lastDetectionTime r)
    (showEmotionPopup r) v (timerCount r) (isProcessing r).
Definition timerCount' v (r : ReactState) : ReactState :=
  mkReact (cameraPermission r) (micPermission r) (isAnalyzing r)
    (currentEmotion r) (emotionHistory r) (showInfo r) (stressLevel r)
    (engagementLevel r) (focusLevel r) (lastDetectionTime r)
    (showEmotionPopup r) (popupEmotion r) v (isProcessing r).
Definition isProcessing' v (r : ReactState) : ReactState :=
  mkReact (cameraPermission r) (micPermission r) (isAnalyzing r)
    (currentEmotion r) (emotionHistory r) (showInfo r) (stressLevel r)
    (engagementLevel r) (focusLevel r) (lastDetectionTime r)
    (showEmotionPopup r) (popupEmotion r) (timerCount r) v.

Definition timerIntervalRef' v (r : Refs) : Refs :=
  mkRefs v (videoRef r) (canvasRef r) (mediaStreamRef r) (popupTimeoutRef r)
    (lastApiCallTimeRef r) (abortControllerRef r).
Definition videoRef' v (r : Refs) : Refs :=
  mkRefs (timerIntervalRef r) v (canvasRef r) (mediaStreamRef r)
    (popupTimeoutRef r) (lastApiCallTimeRef r) (abortControllerRef r).
Definition canvasRef' v (r : Refs) : Refs :=
  mkRefs (timerIntervalRef r) (videoRef r) v (mediaStreamRef r)
    (popupTimeoutRef r) (lastApiCallTimeRef r) (abortControllerRef r).
Definition mediaStreamRef' v (r : Refs) : Refs :=
  mkRefs (timerIntervalRef r) (videoRef r) (canvasRef r) v (popupTimeoutRef r)
    (lastApiCallTimeRef r) (abortControllerRef r).
Definition popupTimeoutRef' v (r : Refs) : Refs :=
  mkRefs (timerIntervalRef r) (videoRef r) (canvasRef r) (mediaStreamRef r) v
    (lastApiCallTimeRef r) (abortControllerRef r).
Definition lastApiCallTimeRef' v (r : Refs) : Refs :=
  mkRefs (timerIntervalRef r) (videoRef r) (canvasRef r) (mediaStreamRef r)
    (popupTimeoutRef r) v (abortControllerRef r).
Definition abortControllerRef' v (r : Refs) : Refs :=
  mkRefs (timerIntervalRef r) (videoRef r) (canvasRef r) (mediaStreamRef r)
    (popupTimeoutRef r) (lastApiCallTimeRef r) v.

Definition nextHandle' v (b : Browser) : Browser :=
  mkBrowser v (timeouts b) (intervals b) (stoppedStreams b)
    (abortedControllers b) (toasts b) (console b).
Definition timeouts' v (b : Browser) : Browser :=
  mkBrowser (nextHandle b) v (intervals b) (stoppedStreams b)
    (abortedControllers b) (toasts b) (console b).
Definition intervals' v (b : Browser) : Browser :=
  mkBrowser (nextHandle b) (timeouts b) v (stoppedStreams b)
    (abortedControllers b) (toasts b) (console b).
Definition stoppedStreams' v (b : Browser) : Browser :=
  mkBrowser (nextHandle b) (timeouts b) (intervals b) v (abortedControllers b)
    (toasts b) (console b).
Definition abortedControllers' v (b : Browser) : Browser :=
  mkBrowser (nextHandle b) (timeouts b) (intervals b) (stoppedStreams b) v
    (toasts b) (console b).
Definition toasts' v (b : Browser) : Browser :=
  mkBrowser (nextHandle b) (timeouts b) (intervals b) (stoppedStreams b)
    (abortedControllers b) v (console b).
Definition console' v (b : Browser) : Browser :=
  mkBrowser (nextHandle b) (timeouts b) (intervals b) (stoppedStreams b)
    (abortedControllers b) (toasts b) v.

End Upd.

(** ** State setters and browser primitives *)

Definition setCameraPermission (v : bool) : State -> State :=
  Upd.on_react (Upd.cameraPermission' (Some v)).
Definition setMicPermission (v : bool) : State -> State :=
  Upd.on_react (Upd.micPermission' (Some v)).
Definition setIsAnalyzing (v : bool) : State -> State :=
  Upd.on_react (Upd.isAnalyzing' v).
Definition setCurrentEmotion (v : string) : State -> State :=
  Upd.on_react (Upd.currentEmotion' (Some v)).
(** [setEmotionHistory(prev => f(prev))] *)
Definition setEmotionHistory
    (f : list ClassificationEvent -> list ClassificationEvent) (s : State)
    : State :=
  Upd.on_react (Upd.emotionHistory' (f (emotionHistory (react s)))) s.
Definition setShowInfo (v : bool) : State -> State :=
  Upd.on_react (Upd.showInfo' v).
Definition setStressLevel (v : Z) : State -> State :=
  Upd.on_react (Upd.stressLevel' v).
Definition setEngagementLevel (v : Z) : State -> State :=
  Upd.on_react (Upd.engagementLevel' v).
Definition setFocusLevel (v : Z) : State -> State :=
  Upd.on_react (Upd.focusLevel' v).
Definition setLastDetectionTime (v : Z) : State -> State :=
  Upd.on_react (Upd.lastDetectionTime' v).
Definition setShowEmotionPopup (v : bool) : State -> State :=
  Upd.on_react (Upd.showEmotionPopup' v).
Definition setPopupEmotion (v : string) : State -> State :=
  Upd.on_react (Upd.popupEmotion' (Some v)).
Definition setTimerCount (v : Z) : State -> State :=
  Upd.on_react (Upd.timerCount' v).
Definition setIsProcessing (v : bool) : State -> State :=
  Upd.on_react (Upd.isProcessing' v).

Definition console_log (t : string) (a : list LogArg) (s : State) : State :=
  Upd.on_browser
    (Upd.console' (console (browser s) ++ [mkLog LevelLog t a])) s.

Definition console_error (t : string) (a : list LogArg) (s : State) : State :=
  Upd.on_browser
    (Upd.console' (console (browser s) ++ [mkLog LevelError t a])) s.

Definition toast (t : Toast) (s : State) : State :=
  Upd.on_browser (Upd.toasts' (toasts (browser s) ++ [t])) s.

(** A fresh handle, for a timer or an abort controller. *)
Definition freshHandle (s : State) : Z * State :=
  let h := nextHandle (browser s) in
  (h, Upd.on_browser (Upd.nextHandle' (h + 1)) s).

(** [window.setTimeout(cb, delay)] called at time [now]. *)
Definition window_setTimeout (cb : TimeoutAction) (delay now : Z) (s : State)
    : Z * State :=
  let (h, s) := freshHandle s in
  (h, Upd.on_browser
        (Upd.timeouts' (timeouts (browser s) ++ [mkTimeout h (now + delay) cb]))
        s).

Definition window_clearTimeout (h : Z) (s : State) : State :=
  Upd.on_browser
    (Upd.timeouts'
       (filter (fun t => negb (Z.eqb (handle t) h)) (timeouts (browser s))))
    s.

(** [window.setInterval(updateTimer, 1000)] *)
Definition window_setInterval (s : State) : Z * State :=
  let (h, s) := freshHandle s in
  (h, Upd.on_browser (Upd.intervals' (intervals (browser s) ++ [h])) s).

Definition clearInterval (h : Z) (s : State) : State :=
  Upd.on_browser
    (Upd.intervals' (filter (fun i => negb (Z.eqb i h)) (intervals (browser s))))
    s.

(** [stream.getTracks().forEach(track => { track.stop(); console.log(...) })] *)
Definition stopTracks (stream : Z) (s : State) : State :=
  let s :=
    Upd.on_browser
      (Upd.stoppedStreams' (stoppedStreams (browser s) ++ [stream])) s in
  console_log "Stopped track:" [ArgStr "video"] s.

(** [new AbortController()] *)
Definition new_AbortController (s : State) : Z * State := freshHandle s.

(** [controller.abort()] *)
Definition abort (h : Z) (s : State) : State :=
  Upd.on_browser
    (Upd.abortedControllers' (abortedControllers (browser s) ++ [h])) s.

(** [videoRef.current.srcObject = v], when the element is mounted. *)
Definition setSrcObject (v : option Z) (s : State) : State :=
  match videoRef (refs s) with
  | Some _ => Upd.on_refs (Upd.videoRef' (Some (mkVideo v))) s
  | None => s
  end.

(** ** Arithmetic of the source *)

(** [Math.floor(r * n)] for a draw [r] of [Math.random()]. *)
Definition random_below (r : Q) (n : Z) : Z := Qfloor (r * inject_Z n).

(** [0.7 + r * 0.3] for a draw [r] of [Math.random()]. *)
Definition random_score (r : Q) : Q := (0.7 + r * 0.3)%Q.

(** [l.slice(-n)]: the last [n] elements, all of [l] when it is shorter. *)
Definition slice_last {A : Type} (n : nat) (l : list A) : list A :=
  skipn (List.length l - n)%nat l.

(** [arr[i]] on an array of strings; out of range JavaScript answers
    [undefined], which no draw in [0, 1) reaches. *)
Definition array_get (arr : list string) (i : Z) : string :=
  if Z.ltb i 0 then "undefined" else nth (Z.to_nat i) arr "undefined".

(** JavaScript truthiness of a [string | null]: [null] and the empty string
    are falsy. *)
Definition truthy (v : option string) : bool :=
  match v with
  | Some e => negb (e =? "")
  | None => false
  end.

(** ** Metric mapper *)

Definition updateMetricsBasedOnEmotion
    (emotion : string) (rStress rEngagement rFocus : Q) (s : State) : State :=
  let s :=
    if emotion =? "stressed" then
      setStressLevel (75 + random_below rStress 25) s
    else if emotion =? "confused" then
      setStressLevel (50 + random_below rStress 25) s
    else if emotion =? "sad" then
      setStressLevel (60 + random_below rStress 20) s
    else if emotion =? "neutral" then
      setStressLevel (20 + random_below rStress 20) s
    else if emotion =? "focused" then
      setStressLevel (10 + random_below rStress 15) s
    else if emotion =? "happy" then
      setStressLevel (5 + random_below rStress 10) s
    else
      setStressLevel (15 + random_below rStress 20) s in
  let s :=
    if (emotion =? "focused") || (emotion =? "happy") then
      setEngagementLevel (80 + random_below rEngagement 20) s
    else if emotion =? "neutral" then
      setEngagementLevel (50 + random_below rEngagement 30) s
    else if emotion =? "sad" then
      setEngagementLevel (20 + random_below rEngagement 30) s
    else if emotion =? "stressed" then
      setEngagementLevel (15 + random_below rEngagement 25) s
    else
      setEngagementLevel (30 + random_below rEngagement 40) s in
  if emotion =? "focused" then
    setFocusLevel (85 + random_below rFocus 15) s
  else if emotion =? "happy" then
    setFocusLevel (70 + random_below rFocus 20) s
  else if emotion =? "neutral" then
    setFocusLevel (50 + random_below rFocus 20) s
  else if emotion =? "stressed" then
    setFocusLevel (15 + random_below rFocus 20) s
  else if emotion =? "sad" then
    setFocusLevel (20 + random_below rFocus 20) s
  else
    setFocusLevel (30 + random_below rFocus 30) s.

(** ** Support popup *)

Definition showEmotionalSupportPopup (emotion : string) (now : Z) (s : State)
    : State :=
  let s :=
    match popupTimeoutRef (refs s) with
    | Some h => window_clearTimeout h s
    | None => s
    end in
  let s := setPopupEmotion emotion s in
  let s := setShowEmotionPopup true s in
  let (h, s) := window_setTimeout HidePopup 8000 now s in
  Upd.on_refs (Upd.popupTimeoutRef' (Some h)) s.

(** The callback given to [setTimeout] by [showEmotionalSupportPopup]. *)
Definition hidePopupCallback (s : State) : State :=
  let s := setShowEmotionPopup false s in
  Upd.on_refs (Upd.popupTimeoutRef' None) s.

(** ** History aggregator and forced update *)

Definition dummyEmotions6 : list string :=
  ["happy"; "focused"; "neutral"; "confused"; "sad"; "stressed"].

Definition dummyEmotions7 : list string :=
  ["happy"; "focused"; "neutral"; "confused"; "sad"; "stressed"; "bored"].

(** [prev => [...prev, ev].slice(-12)] *)
Definition appendEvent (ev : ClassificationEvent)
    (prev : list ClassificationEvent) : list ClassificationEvent :=
  slice_last 12 (prev ++ [ev]).

Definition forceEmotionUpdate (c : Closure)
    (rLabel rScore rStress rEngagement rFocus : Q) (now : Z) (s : State)
    : State :=
  if negb (c_isAnalyzing c) then s else
  let randomEmotion :=
    array_get dummyEmotions7
      (random_below rLabel (Z.of_nat (List.length dummyEmotions7))) in
  let s := setCurrentEmotion randomEmotion s in
  let s :=
    setEmotionHistory
      (appendEvent (mkEvent randomEmotion now (random_score rScore))) s in
  let s := updateMetricsBasedOnEmotion randomEmotion rStress rEngagement rFocus s in
  console_log "Forced emotion update to:" [ArgStr randomEmotion] s.

(** ** Capture sampler and inference adapter *)

(** The promise of an [async] call, as its caller sees it. *)
Inductive Promise := Pending | Fulfilled | Rejected.

(** The answer of [detectEmotionWithFacePlusPlus]. *)
Inductive ClassifierOutcome :=
| ApiResolved (emotion : string) (confidence : Q)
| ApiFailed.

(** The [finally] block of [processVideoFrame]. *)
Definition processVideoFrame_finally (s : State) : State :=
  let s := setIsProcessing false s in
  Upd.on_refs (Upd.abortControllerRef' None) s.

(** [processVideoFrame] from its call to the [await] on the classifier
    ([Pending]), or to its end when it returns before ([Fulfilled]).  The
    line logged by the rate limit carries the elapsed time, which the source
    writes inside the text. *)
Definition processVideoFrame_begin (c : Closure) (now : Z) (s : State)
    : Promise * State :=
  match videoRef (refs s), canvasRef (refs s) with
  | Some _, Some canvas =>
    if negb (c_isAnalyzing c) || c_isProcessing c then (Fulfilled, s) else
    let timeSinceLastCall := now - lastApiCallTimeRef (refs s) in
    if Z.ltb timeSinceLastCall 1000 then
      (Fulfilled,
       console_log "Skipping API call, too soon (ms since last call)"
         [ArgNum timeSinceLastCall] s)
    else
      let s := setIsProcessing true s in
      let s :=
        match abortControllerRef (refs s) with
        | Some h => abort h s
        | None => s
        end in
      let (h, s) := new_AbortController s in
      let s := Upd.on_refs (Upd.abortControllerRef' (Some h)) s in
      if negb (has2dContext canvas) then
        (Fulfilled, processVideoFrame_finally s)
      else
        let s := setLastDetectionTime now s in
        let s := Upd.on_refs (Upd.lastApiCallTimeRef' now) s in
        let s := setTimerCount 3 s in
        let s := console_log "Detecting emotion with Face++ API..." [] s in
        (Pending, s)
  | _, _ => (Fulfilled, s)
  end.

(** [processVideoFrame] from the classifier's answer to its end.  The draws
    [rLabel] and [rScore] are used by the fallback only. *)
Definition processVideoFrame_resume (outcome : ClassifierOutcome)
    (rLabel rScore rStress rEngagement rFocus : Q) (now : Z) (s : State)
    : Promise * State :=
  match outcome with
  | ApiResolved e confidence =>
    let s := console_log "Emotion detected:" [ArgEvent e confidence] s in
    let s := setCurrentEmotion e s in
    let s := setEmotionHistory (appendEvent (mkEvent e now confidence)) s in
    let s := updateMetricsBasedOnEmotion e rStress rEngagement rFocus s in
    let s :=
      if (e =? "stressed") || (e =? "sad") then
        showEmotionalSupportPopup e now s
      else s in
    let s := toast (toast_success (String.append "Emotion detected: " e)) s in
    (Fulfilled, processVideoFrame_finally s)
  | ApiFailed =>
    let s := console_error "Error detecting emotion:" [ArgError] s in
    let s :=
      toast (toast_error "Error analyzing emotion. Using simulated data.") s in
    let randomEmotion :=
      array_get dummyEmotions6
        (random_below rLabel (Z.of_nat (List.length dummyEmotions6))) in
    let s := setCurrentEmotion randomEmotion s in
    let s :=
      setEmotionHistory
        (appendEvent (mkEvent randomEmotion now (random_score rScore))) s in
    let s :=
      updateMetricsBasedOnEmotion randomEmotion rStress rEngagement rFocus s in
    (Fulfilled, processVideoFrame_finally s)
  end.

(** [promise.catch(() => forceEmotionUpdate())], once the promise settled. *)
Definition catchForceUpdate (p : Promise) (c : Closure)
    (rLabel rScore rStress rEngagement rFocus : Q) (now : Z) (s : State)
    : State :=
  match p with
  | Rejected => forceEmotionUpdate c rLabel rScore rStress rEngagement rFocus now s
  | _ => s
  end.

(** One tick of the interval; the promise is the one of the capture it
    started, [Fulfilled] when it started none. *)
Definition updateTimer (c : Closure) (now : Z) (s : State) : Promise * State :=
  if Z.leb (timerCount (react s)) 1 then
    let (p, s) := processVideoFrame_begin c now s in
    (p, setTimerCount 3 s)
  else
    (Fulfilled, setTimerCount (timerCount (react s) - 1) s).

(** ** Permission acquisition *)

(** Release of the held stream, as written in [requestCameraPermission],
    [startAnalysis] and [stopAnalysis]. *)
Definition releaseStream (s : State) : State :=
  match mediaStreamRef (refs s) with
  | Some stream =>
    let s := stopTracks stream s in
    Upd.on_refs (Upd.mediaStreamRef' None) s
  | None => s
  end.

(** [requestCameraPermission] up to its [await]. *)
Definition requestCameraPermission_begin (s : State) : State :=
  let s := releaseStream s in
  let s := setSrcObject None s in
  console_log "Requesting camera permission..." [] s.

(** [requestCameraPermission] from the answer of [getUserMedia]: a stream, or
    [None] when it threw. *)
Definition requestCameraPermission_resume (answer : option Z) (s : State)
    : bool * State :=
  match answer with
  | Some stream =>
    let s :=
      console_log "Camera permission granted, setting up video stream" [] s in
    let s := setCameraPermission true s in
    let s := Upd.on_refs (Upd.mediaStreamRef' (Some stream)) s in
    let s := setSrcObject (Some stream) s in
    (true, s)
  | None =>
    let s := console_error "Error accessing camera:" [ArgError] s in
    let s := setCameraPermission false s in
    let s :=
      toast
        (toast_error
           "Camera access denied. Please enable camera permissions and try again.")
        s in
    (false, s)
  end.

Definition requestMicPermission_begin (s : State) : State :=
  console_log "Requesting microphone permission..." [] s.

Definition requestMicPermission_resume (granted : bool) (s : State)
    : bool * State :=
  if granted then
    let s := console_log "Microphone permission granted" [] s in
    let s := setMicPermission true s in
    (true, s)
  else
    let s := console_error "Error accessing microphone:" [ArgError] s in
    let s := setMicPermission false s in
    let s :=
      toast
        (toast_error
           "Microphone access denied. Please enable microphone permissions and try again.")
        s in
    (false, s).

(** ** Session controller *)

(** [startAnalysis] up to the [await] inside [requestCameraPermission]. *)
Definition startAnalysis_begin (s : State) : State :=
  let s := console_log "Starting analysis..." [] s in
  let s := releaseStream s in
  let s := setSrcObject None s in
  requestCameraPermission_begin s.

(** [micPermission || await requestMicPermission()] *)
Definition startAnalysis_mic (c : Closure) (mic : bool) (s : State)
    : bool * State :=
  match c_micPermission c with
  | Some true => (true, s)
  | _ => requestMicPermission_resume mic (requestMicPermission_begin s)
  end.

(** [startAnalysis] after both permissions are known. *)
Definition startAnalysis_finish (c : Closure) (hasCamera hasMic : bool)
    (rStress rEngagement rFocus : Q) (now : Z) (s : State) : State :=
  if hasCamera && hasMic then
    let s := setIsAnalyzing true s in
    let s := toast (toast_success "Emotion detection started") s in
    let s :=
      if negb (truthy (c_currentEmotion c)) then
        let s := setCurrentEmotion "neutral" s in
        let s := setEmotionHistory (fun _ => [mkEvent "neutral" now 0.8%Q]) s in
        updateMetricsBasedOnEmotion "neutral" rStress rEngagement rFocus s
      else s in
    let (_, s) := window_setTimeout FirstCapture 1000 now s in
    match timerIntervalRef (refs s) with
    | None =>
      let (h, s) := window_setInterval s in
      Upd.on_refs (Upd.timerIntervalRef' (Some h)) s
    | Some _ => s
    end
  else
    toast
      (toast_error
         "Both camera and microphone access are required for emotion detection")
      s.

(** [startAnalysis] run without interruption: [camera] and [mic] are the
    answers of the two [getUserMedia] calls. *)
Definition startAnalysis (c : Closure) (camera : option Z) (mic : bool)
    (rStress rEngagement rFocus : Q) (now : Z) (s : State) : State :=
  let s := startAnalysis_begin s in
  let (hasCamera, s) := requestCameraPermission_resume camera s in
  let (hasMic, s) := startAnalysis_mic c mic s in
  startAnalysis_finish c hasCamera hasMic rStress rEngagement rFocus now s.

Definition stopAnalysis (s : State) : State :=
  let s := console_log "Stopping analysis..." [] s in
  let s := setIsAnalyzing false s in
  let s :=
    match timerIntervalRef (refs s) with
    | Some h =>
      let s := clearInterval h s in
      Upd.on_refs (Upd.timerIntervalRef' None) s
    | None => s
    end in
  let s := releaseStream s in
  let s := setSrcObject None s in
  let s :=
    match abortControllerRef (refs s) with
    | Some h =>
      let s := abort h s in
      Upd.on_refs (Upd.abortControllerRef' None) s
    | None => s
    end in
  toast (toast_info "Emotion detection stopped") s.

(** The cleanup of the [useEffect]: it runs when the component unmounts and
    nulls no ref. *)
Definition unmountCleanup (s : State) : State :=
  let s :=
    match timerIntervalRef (refs s) with
    | Some h => clearInterval h s
    | None => s
    end in
  let s :=
    match mediaStreamRef (refs s) with
    | Some stream =>
      Upd.on_browser
        (Upd.stoppedStreams' (stoppedStreams (browser s) ++ [stream])) s
    | None => s
    end in
  let s :=
    match popupTimeoutRef (refs s) with
    | Some h => window_clearTimeout h s
    | None => s
    end in
  match abortControllerRef (refs s) with
  | Some h => abort h s
  | None => s
  end.

(** * Vocabulary of the properties *)

(** ** Draws and bands *)

(** The contract of [Math.random()]: a number in [0, 1). *)
Definition unit_draw (r : Q) : Prop := (0 <= r /\ r < 1)%Q.

(** The draws one operation consumes, in the order of the source. *)
Record Draws := mkDraws {
  dLabel : Q;
  dScore : Q;
  dStress : Q;
  dEngagement : Q;
  dFocus : Q
}.

Definition unit_draws (d : Draws) : Prop :=
  unit_draw (dLabel d) /\ unit_draw (dScore d) /\ unit_draw (dStress d) /\
  unit_draw (dEngagement d) /\ unit_draw (dFocus d).

Definition in_band (v : Z) (b : Z * Z) : Prop := fst b <= v <= snd b.

(** The bands of the specification's table, row by row; a label with no row
    of its own falls in the last row. *)
Definition specStressBand (e : string) : Z * Z :=
  if e =? "stressed" then (75, 99)
  else if e =? "confused" then (50, 74)
  else if e =? "sad" then (60, 79)
  else if e =? "neutral" then (20, 39)
  else if e =? "focused" then (10, 24)
  else if e =? "happy" then (5, 14)
  else (15, 34).

Definition specEngagementBand (e : string) : Z * Z :=
  if e =? "stressed" then (15, 39)
  else if e =? "confused" then (30, 69)
  else if e =? "sad" then (20, 49)
  else if e =? "neutral" then (50, 79)
  else if e =? "focused" then (80, 99)
  else if e =? "happy" then (80, 99)
  else (30, 69).

Definition specFocusBand (e : string) : Z * Z :=
  if e =? "stressed" then (30, 59)
  else if e =? "confused" then (30, 59)
  else if e =? "sad" then (20, 39)
  else if e =? "neutral" then (50, 69)
  else if e =? "focused" then (85, 99)
  else if e =? "happy" then (70, 89)
  else (30, 59).

(** The focus band the code has: the table's, but 15-34 for "stressed". *)
Definition codeFocusBand (e : string) : Z * Z :=
  if e =? "stressed" then (15, 34) else specFocusBand e.

(** The trigger set of the support popup. *)
Definition isTrigger (e : string) : bool := (e =? "stressed") || (e =? "sad").

(** ** The three paths that record a classification event *)

(** Wrappers that pass a [Draws] record to the operations. *)
Definition captureResume (o : ClassifierOutcome) (d : Draws) (now : Z)
    (s : State) : Promise * State :=
  processVideoFrame_resume o (dLabel d) (dScore d) (dStress d)
    (dEngagement d) (dFocus d) now s.

Definition forceUpdate (c : Closure) (d : Draws) (now : Z) (s : State)
    : State :=
  forceEmotionUpdate c (dLabel d) (dScore d) (dStress d) (dEngagement d)
    (dFocus d) now s.

Inductive Arrival :=
| ViaApi (e : string) (confidence : Q) (d : Draws) (now : Z)
| ViaFallback (d : Draws) (now : Z)
| ViaForceUpdate (c : Closure) (d : Draws) (now : Z).

(** What the path does to the hook. *)
Definition arrive (s : State) (a : Arrival) : State :=
  match a with
  | ViaApi e confidence d now =>
    snd (captureResume (ApiResolved e confidence) d now s)
  | ViaFallback d now => snd (captureResume ApiFailed d now s)
  | ViaForceUpdate c d now => forceUpdate c d now s
  end.

(** The label the fallback of [processVideoFrame] picks ... *)
Definition fallbackLabel (r : Q) : string :=
  array_get dummyEmotions6 (random_below r 6).

(** ... and the one [forceEmotionUpdate] picks. *)
Definition forcedLabel (r : Q) : string :=
  array_get dummyEmotions7 (random_below r 7).

(** The event the path records; a forced update whose closure is not
    analyzing returns at once and records none. *)
Definition eventOf (a : Arrival) : option ClassificationEvent :=
  match a with
  | ViaApi e confidence _ now => Some (mkEvent e now confidence)
  | ViaFallback d now =>
    Some (mkEvent (fallbackLabel (dLabel d)) now (random_score (dScore d)))
  | ViaForceUpdate c d now =>
    if c_isAnalyzing c then
      Some (mkEvent (forcedLabel (dLabel d)) now (random_score (dScore d)))
    else None
  end.

Definition eventsOf (l : list Arrival) : list ClassificationEvent :=
  flat_map (fun a => match eventOf a with Some ev => [ev] | None => [] end) l.

(** ** Timeouts coming due *)

Definition isHidePopup (t : Timeout) : bool :=
  match action t with HidePopup => true | FirstCapture => false end.

(** The browser runs a pending timeout: it leaves the pending list and its
    callback runs. *)
Definition fireHidePopup (t : Timeout) (s : State) : State :=
  hidePopupCallback (window_clearTimeout (handle t) s).

(** The clock reaches [t] with nothing else happening: the popup timeouts due
    by then fire, oldest first. *)
Definition elapsePopup (t : Z) (s : State) : State :=
  fold_left
    (fun acc x =>
       if isHidePopup x && Z.leb (due x) t then fireHidePopup x acc else acc)
    (timeouts (browser s)) s.

(** Every pending popup timeout is the one [popupTimeoutRef] holds. *)
Definition popupTimeoutsTracked (s : State) : Prop :=
  forall x, In x (timeouts (browser s)) -> action x = HidePopup ->
            popupTimeoutRef (refs s) = Some (handle x).

(** What stays pending once [showEmotionalSupportPopup] has cleared the
    timeout it held. *)
Definition pendingAfterClear (s : State) : list Timeout :=
  match popupTimeoutRef (refs s) with
  | Some h =>
    filter (fun t => negb (Z.eqb (handle t) h)) (timeouts (browser s))
  | None => timeouts (browser s)
  end.

(** ** Reachable states *)

(** One step of the hook: an exported operation, a scheduled callback, or one
    of the parts an [async] operation is cut into.  Closures, answers of the
    outside world, clock readings and draws are arbitrary, so every
    interleaving and every stale closure is covered. *)
Inductive step : State -> State -> Prop :=
| step_start_begin s :
    step s (startAnalysis_begin s)
| step_camera_answer answer s :
    step s (snd (requestCameraPermission_resume answer s))
| step_mic c mic s :
    step s (snd (startAnalysis_mic c mic s))
| step_start_finish c hasCamera hasMic d now s :
    step s (startAnalysis_finish c hasCamera hasMic (dStress d)
              (dEngagement d) (dFocus d) now s)
| step_stop s :
    step s (stopAnalysis s)
| step_capture_begin c now s :
    step s (snd (processVideoFrame_begin c now s))
| step_capture_resume o d now s :
    step s (snd (captureResume o d now s))
| step_force c d now s :
    step s (forceUpdate c d now s)
| step_tick h c now s :
    In h (intervals (browser s)) ->
    step s (snd (updateTimer c now s))
| step_hide_popup t s :
    In t (timeouts (browser s)) -> action t = HidePopup ->
    step s (fireHidePopup t s)
| step_first_capture t c now s :
    In t (timeouts (browser s)) -> action t = FirstCapture ->
    step s (snd (processVideoFrame_begin c now
                   (window_clearTimeout (handle t) s)))
| step_setShowInfo b s :
    step s (setShowInfo b s)
| step_setShowEmotionPopup b s :
    step s (setShowEmotionPopup b s)
| step_mount v cv s :
    step s (Upd.on_refs (Upd.canvasRef' cv) (Upd.on_refs (Upd.videoRef' v) s))
| step_unmount s :
    step s (unmountCleanup s).

Inductive reachable : State -> Prop :=
| reach_init v cv : reachable (initialState v cv)
| reach_step s s' : reachable s -> step s s' -> reachable s'.

(** The tick timer is stopped: no handle is held and no interval runs. *)
Definition timerStopped (s : State) : Prop :=
  timerIntervalRef (refs s) = None /\ intervals (browser s) = [].

(** All session resources are released. *)
Definition released (s : State) : Prop :=
  mediaStreamRef (refs s) = None /\
  timerIntervalRef (refs s) = None /\
  abortControllerRef (refs s) = None.

(** An interval that runs is the one [timerIntervalRef] holds, and one is
    held only while analyzing. *)
Definition timerInvariant (s : State) : Prop :=
  (forall i, In i (intervals (browser s)) ->
             timerIntervalRef (refs s) = Some i) /\
  (isAnalyzing (react s) = false -> timerIntervalRef (refs s) = None).

(** Everything of the browser but the console. *)
Definition sameBrowserButConsole (b b' : Browser) : Prop :=
  nextHandle b' = nextHandle b /\ timeouts b' = timeouts b /\
  intervals b' = intervals b /\ stoppedStreams b' = stoppedStreams b /\
  abortedControllers b' = abortedControllers b /\ toasts b' = toasts b.

(** The history never holds more than 12 events. *)
Definition historyBounded (s : State) : Prop :=
  (List.length (emotionHistory (react s)) <= 12)%nat.

(** What the timer invariant reads, and what the popup invariant reads. *)
Definition timerView (s : State) : bool * option Z * list Z :=
  (isAnalyzing (react s), timerIntervalRef (refs s), intervals (browser s)).

Definition popupTimerView (s : State) : option Z * list Timeout :=
  (popupTimeoutRef (refs s), timeouts (browser s)).

(** ** Sample runs, for the concrete instances

    A hook with both elements mounted; a start at time 1000 whose camera
    answers with stream 1 and whose microphone is granted; a capture begun at
    5000 from the render of the started hook, answered at 5300. *)

Definition zeroDraws : Draws := mkDraws 0 0 0 0 0.

Definition idle : State :=
  initialState (Some (mkVideo None)) (Some (mkCanvas true)).

Definition started : State :=
  startAnalysis (render idle) (Some 1) true 0 0 0 1000 idle.

Definition capturing : State :=
  snd (processVideoFrame_begin (render started) 5000 started).

Definition captured : State :=
  snd (captureResume (ApiResolved "happy" 0.9%Q) zeroDraws 5300 capturing).

(** A start at time 1000 whose camera answers with stream 1 and whose
    microphone is denied. *)
Definition micDenied : State :=
  startAnalysis (render idle) (Some 1) false 0 0 0 1000 idle.

(** ** Tactics *)

Ltac split_on_label e :=
  repeat match goal with
         | |- context [String.eqb e ?l] =>
           destruct (String.eqb_spec e l) as [-> | ?]
         end.

Ltac split_ifs :=
  repeat match goal with
         | |- context [if ?b then _ else _] => destruct b eqn:?
         | |- context [match ?x with Some _ => _ | None => _ end] =>
           destruct x eqn:?
         end.

Ltac hook_cbn :=
  cbn -[random_below random_score Z.add Z.sub Z.ltb Z.leb String.eqb].

Ltac hook_cases :=
  repeat (hook_cbn;
          match goal with
          | |- context [if ?b then _ else _] => destruct b eqn:?
          | |- context [match ?x with Some _ => _ | None => _ end] =>
            destruct x eqn:?
          end).

(** * Vocabulary of the further properties *)

(** [requestCameraPermission] and [requestMicPermission] run without
    interruption, [answer] and [granted] being what [getUserMedia] does. *)
Definition requestCameraPermission (answer : option Z) (s : State)
    : bool * State :=
  requestCameraPermission_resume answer (requestCameraPermission_begin s).

Definition requestMicPermission (granted : bool) (s : State) : bool * State :=
  requestMicPermission_resume granted (requestMicPermission_begin s).

(** Whether [getUserMedia] answered with a stream. *)
Definition granted (answer : option Z) : bool :=
  match answer with Some _ => true | None => false end.

(** The toasts of the two permission requests and of a failed start. *)
Definition cameraDeniedToast : Toast :=
  toast_error
    "Camera access denied. Please enable camera permissions and try again.".

Definition micDeniedToast : Toast :=
  toast_error
    "Microphone access denied. Please enable microphone permissions and try again.".

Definition bothRequiredToast : Toast :=
  toast_error
    "Both camera and microphone access are required for emotion detection".

(** Whether [startAnalysis] asks for the microphone: not when its closure
    already sees the permission granted. *)
Definition asksMic (c : Closure) : bool :=
  match c_micPermission c with Some true => false | _ => true end.

(** The microphone gate of [startAnalysis] is passed. *)
Definition micPasses (c : Closure) (mic : bool) : bool :=
  negb (asksMic c) || mic.

(** The countdown shows 3, 2 or 1. *)
Definition countdownInRange (s : State) : Prop :=
  1 <= timerCount (react s) <= 3.

Definition oneIntervalAtMost (s : State) : Prop :=
  (List.length (intervals (browser s)) <= 1)%nat.

Definition onePopupTimeoutAtMost (s : State) : Prop :=
  (List.length (filter isHidePopup (timeouts (browser s))) <= 1)%nat.

Definition isFirstCapture (t : Timeout) : bool := negb (isHidePopup t).

(** A started hook whose first capture is answered "sad": the popup is up. *)
Definition saddened : State :=
  snd (captureResume (ApiResolved "sad" 0.9%Q) zeroDraws 5300 capturing).

(** * Properties *)

(** ** Draws of [Math.random()] *)

Lemma random_below_range (r : Q) (n : Z) :
  0 < n -> unit_draw r -> 0 <= random_below r n <= n - 1.
Proof.
  intros Hn [H0 H1]. unfold random_below.
  assert (Hpos : (0 < inject_Z n)%Q).
  { change 0%Q with (inject_Z 0). rewrite <- Zlt_Qlt. exact Hn. }
  split.
  - rewrite <- (Qfloor_Z 0).
    apply Qfloor_resp_le. change (inject_Z 0) with 0%Q. nra.
  - assert (Hlt : (inject_Z (Qfloor (r * inject_Z n)) < inject_Z n)%Q).
    { apply Qle_lt_trans with (r * inject_Z n)%Q.
      - apply Qfloor_le.
      - nra. }
    rewrite <- Zlt_Qlt in Hlt. lia.
Qed.

Lemma random_score_range (r : Q) :
  unit_draw r -> (0.7 <= random_score r /\ random_score r < 1)%Q.
Proof.
  intros [H0 H1]. unfold random_score. split; lra.
Qed.

Lemma unit_draw_0 : unit_draw 0.
Proof. unfold unit_draw. lra. Qed.

(** ** Metric bands *)

Ltac band_bounds :=
  repeat match goal with
         | H : unit_draw ?r |- context [random_below ?r ?n] =>
           lazymatch goal with
           | _ : 0 <= random_below r n <= n - 1 |- _ => fail
           | _ => pose proof (random_below_range r n eq_refl H)
           end
         end.

Lemma stressLevel_band (e : string) (rS rE rF : Q) (s : State) :
  unit_draw rS ->
  in_band (stressLevel (react (updateMetricsBasedOnEmotion e rS rE rF s)))
          (specStressBand e).
Proof.
  intros HS. unfold updateMetricsBasedOnEmotion, specStressBand, in_band.
  split_on_label e; cbn -[Z.add random_below]; band_bounds; lia.
Qed.

Lemma engagementLevel_band (e : string) (rS rE rF : Q) (s : State) :
  unit_draw rE ->
  in_band (engagementLevel (react (updateMetricsBasedOnEmotion e rS rE rF s)))
          (specEngagementBand e).
Proof.
  intros HE. unfold updateMetricsBasedOnEmotion, specEngagementBand, in_band.
  split_on_label e; cbn -[Z.add random_below]; band_bounds; lia.
Qed.

Lemma focusLevel_band (e : string) (rS rE rF : Q) (s : State) :
  unit_draw rF ->
  in_band (focusLevel (react (updateMetricsBasedOnEmotion e rS rE rF s)))
          (codeFocusBand e).
Proof.
  intros HF.
  unfold updateMetricsBasedOnEmotion, codeFocusBand, specFocusBand, in_band.
  split_on_label e; cbn -[Z.add random_below]; band_bounds; lia.
Qed.

(** C2, as amended.  For every label and all draws in [0, 1), the three
    values written by [updateMetricsBasedOnEmotion] lie in the bands of the
    specification's table for that label (the last row for a label without a
    row), except that the focus of "stressed" lies in 15-34, not in the
    fallback band 30-59. *)
Theorem C2_metrics_within_bands (e : string) (rS rE rF : Q) (s : State) :
  unit_draw rS -> unit_draw rE -> unit_draw rF ->
  let s' := updateMetricsBasedOnEmotion e rS rE rF s in
  in_band (stressLevel (react s')) (specStressBand e) /\
  in_band (engagementLevel (react s')) (specEngagementBand e) /\
  in_band (focusLevel (react s'))
          (if e =? "stressed" then (15, 34) else specFocusBand e).
Proof.
  intros HS HE HF s'. subst s'. split; [| split].
  - now apply stressLevel_band.
  - now apply engagementLevel_band.
  - now apply focusLevel_band.
Qed.

Lemma C2_metrics_within_bands_witness :
  let s' :=
    updateMetricsBasedOnEmotion "stressed" 0 0 0 (initialState None None) in
  in_band (stressLevel (react s')) (75, 99) /\
  in_band (engagementLevel (react s')) (15, 39) /\
  in_band (focusLevel (react s')) (15, 34).
Proof.
  apply (C2_metrics_within_bands "stressed" 0 0 0 (initialState None None));
    unfold unit_draw; lra.
Defined.

(** C2 as stated fails: for "stressed" and the draw 0 the focus value is 15,
    outside the fallback band 30-59 that the table gives. *)
Lemma C2_stressed_focus_outside_fallback :
  unit_draw 0 /\
  focusLevel
    (react (updateMetricsBasedOnEmotion "stressed" 0 0 0
              (initialState None None))) = 15 /\
  ~ in_band
      (focusLevel
         (react (updateMetricsBasedOnEmotion "stressed" 0 0 0
                   (initialState None None))))
      (specFocusBand "stressed").
Proof.
  split; [exact unit_draw_0 |]. split; [reflexivity |].
  cbv. intros [H _]. apply H. reflexivity.
Qed.
(** ** Frame of the metric mapper *)

(** [updateMetricsBasedOnEmotion] writes the three metric cells and nothing
    else. *)
Lemma updateMetrics_writes (e : string) (rS rE rF : Q) (s : State) :
  exists a b c : Z,
    updateMetricsBasedOnEmotion e rS rE rF s =
    setFocusLevel c (setEngagementLevel b (setStressLevel a s)).
Proof.
  unfold updateMetricsBasedOnEmotion.
  repeat match goal with
         | |- context [if ?b then _ else _] => destruct b
         end; eauto.
Qed.

Ltac metrics_out :=
  repeat match goal with
         | |- context [updateMetricsBasedOnEmotion ?e ?a ?b ?c ?s] =>
           let H := fresh in
           destruct (updateMetrics_writes e a b c s) as (? & ? & ? & H);
           rewrite H; clear H
         end.

Lemma updateMetrics_history (e : string) (rS rE rF : Q) (s : State) :
  emotionHistory (react (updateMetricsBasedOnEmotion e rS rE rF s)) =
  emotionHistory (react s).
Proof.
  destruct (updateMetrics_writes e rS rE rF s) as (a & b & c & ->).
  reflexivity.
Qed.

(** ** Bounded history *)

Section SliceLast.
Context {A : Type}.
Implicit Types (l h : list A) (n : nat).

Lemma slice_last_length n l :
  List.length (slice_last n l) = Nat.min n (List.length l).
Proof. unfold slice_last. rewrite length_skipn. lia. Qed.

Lemma slice_last_short n l :
  (List.length l <= n)%nat -> slice_last n l = l.
Proof.
  intros H. unfold slice_last.
  replace (List.length l - n)%nat with 0%nat by lia. reflexivity.
Qed.

(** The result is a suffix: what is dropped is the front. *)
Lemma slice_last_suffix n l :
  firstn (List.length l - n) l ++ slice_last n l = l.
Proof. unfold slice_last. apply firstn_skipn. Qed.

(** Slicing before a further append changes nothing. *)
Lemma slice_last_app n h l :
  slice_last n (slice_last n h ++ l) = slice_last n (h ++ l).
Proof.
  destruct (Nat.le_gt_cases (List.length h) n) as [Hle | Hgt].
  - now rewrite (slice_last_short n h).
  - unfold slice_last at 1 3.
    rewrite !length_app, slice_last_length.
    unfold slice_last.
    replace (List.length h + List.length l - n)%nat
      with (List.length l + (List.length h - n))%nat by lia.
    rewrite <- skipn_skipn.
    replace (Nat.min n (List.length h) + List.length l - n)%nat
      with (List.length l) by lia.
    f_equal. rewrite skipn_app.
    replace (List.length h - n - List.length h)%nat with 0%nat by lia.
    reflexivity.
Qed.
End SliceLast.

(** Each path appends its event, and only that. *)
Lemma arrive_history (s : State) (a : Arrival) :
  emotionHistory (react (arrive s a)) =
  match eventOf a with
  | Some ev => appendEvent ev (emotionHistory (react s))
  | None => emotionHistory (react s)
  end.
Proof.
  destruct a as [e q d now | d now | c d now]; cbn [arrive eventOf].
  - unfold captureResume, processVideoFrame_resume. metrics_out.
    unfold showEmotionalSupportPopup. split_ifs; reflexivity.
  - unfold captureResume, processVideoFrame_resume. metrics_out.
    reflexivity.
  - unfold forceUpdate, forceEmotionUpdate.
    destruct (c_isAnalyzing c); [| reflexivity].
    metrics_out. reflexivity.
Qed.

Lemma run_history (l : list Arrival) (s : State) :
  (List.length (emotionHistory (react s)) <= 12)%nat ->
  emotionHistory (react (fold_left arrive l s)) =
  slice_last 12 (emotionHistory (react s) ++ eventsOf l).
Proof.
  revert s. induction l as [| a l IH]; intros s Hs; cbn [fold_left].
  - cbn. rewrite app_nil_r. symmetry. now apply slice_last_short.
  - rewrite IH; rewrite arrive_history.
    + unfold eventsOf. cbn [flat_map]. fold (eventsOf l).
      destruct (eventOf a) as [ev |]; [| reflexivity].
      unfold appendEvent. rewrite slice_last_app, <- app_assoc. reflexivity.
    + destruct (eventOf a) as [ev |]; [| exact Hs].
      unfold appendEvent. rewrite slice_last_length. lia.
Qed.

(** From a reachable state the same holds with the history already there
    in front. *)
Lemma reachable_run_history (l : list Arrival) (s : State) :
  historyBounded s ->
  emotionHistory (react (fold_left arrive l s)) =
  slice_last 12 (emotionHistory (react s) ++ eventsOf l).
Proof. exact (run_history l s). Qed.

(** C1.  Start from a fresh hook and let classification events arrive by any
    mix of the API-success path, the fallback path and forced updates.  The
    history then has at most 12 entries and is exactly the last
    min(12, number of events) recorded events, in the order of arrival: the
    recorded sequence is the evicted events followed by the history. *)
Theorem C1_history_keeps_last_12 (v : option Video) (cv : option Canvas)
    (l : list Arrival) :
  let h := emotionHistory (react (fold_left arrive l (initialState v cv))) in
  (List.length h <= 12)%nat /\
  List.length h = Nat.min 12 (List.length (eventsOf l)) /\
  h = slice_last 12 (eventsOf l) /\
  eventsOf l = firstn (List.length (eventsOf l) - 12) (eventsOf l) ++ h.
Proof.
  intros h. subst h. rewrite run_history by (cbn; lia).
  cbn [initialState react emotionHistory app].
  rewrite slice_last_length. repeat split.
  - lia.
  - symmetry. apply slice_last_suffix.
Qed.

(** ** Sample runs *)

Example started_is_analyzing :
  isAnalyzing (react started) = true /\
  currentEmotion (react started) = Some "neutral" /\
  emotionHistory (react started) = [mkEvent "neutral" 1000 0.8%Q] /\
  mediaStreamRef (refs started) = Some 1 /\
  timerIntervalRef (refs started) = Some 2 /\
  intervals (browser started) = [2] /\
  timeouts (browser started) = [mkTimeout 1 2000 FirstCapture].
Proof. repeat split. Qed.

Example capturing_is_in_flight :
  fst (processVideoFrame_begin (render started) 5000 started) = Pending /\
  isProcessing (react capturing) = true /\
  abortControllerRef (refs capturing) = Some 3 /\
  lastApiCallTimeRef (refs capturing) = 5000.
Proof. repeat split. Qed.

Example captured_is_settled :
  currentEmotion (react captured) = Some "happy" /\
  List.length (emotionHistory (react captured)) = 2%nat /\
  isProcessing (react captured) = false /\
  abortControllerRef (refs captured) = None /\
  toasts (browser captured) =
    [toast_success "Emotion detection started";
     toast_success "Emotion detected: happy"].
Proof. repeat split. Qed.

(** ** Labels of the synthetic paths *)

Lemma fallbackLabel_in (r : Q) :
  unit_draw r -> In (fallbackLabel r) dummyEmotions6.
Proof.
  intros H. unfold fallbackLabel.
  pose proof (random_below_range r 6 eq_refl H) as Hk.
  assert (Hcases : random_below r 6 = 0 \/ random_below r 6 = 1 \/
                   random_below r 6 = 2 \/ random_below r 6 = 3 \/
                   random_below r 6 = 4 \/ random_below r 6 = 5) by lia.
  repeat destruct Hcases as [-> | Hcases]; try rewrite Hcases; cbn; tauto.
Qed.

(** The fallback list has no "bored". *)
Lemma fallbackLabel_not_bored (r : Q) :
  unit_draw r -> fallbackLabel r <> "bored".
Proof.
  intros H Hb. pose proof (fallbackLabel_in r H) as Hin.
  rewrite Hb in Hin. cbn in Hin.
  repeat destruct Hin as [Hin | Hin]; try discriminate Hin. exact Hin.
Qed.


Lemma dummyEmotions6_incl : incl dummyEmotions6 dummyEmotions7.
Proof. intros e He. cbn in *. tauto. Qed.


Lemma appendEvent_last (ev : ClassificationEvent)
    (h : list ClassificationEvent) :
  exists front, appendEvent ev h = front ++ [ev] /\
                (List.length front <= 11)%nat.
Proof.
  unfold appendEvent, slice_last. rewrite length_app. cbn [List.length].
  exists (skipn (List.length h + 1 - 12) h). split.
  - rewrite skipn_app.
    replace (List.length h + 1 - 12 - List.length h)%nat with 0%nat by lia.
    reflexivity.
  - rewrite length_skipn. lia.
Qed.

(** ** Support popup and the three paths *)

Lemma showPopup_visible (e : string) (now : Z) (s : State) :
  let s' := showEmotionalSupportPopup e now s in
  showEmotionPopup (react s') = true /\ popupEmotion (react s') = Some e.
Proof.
  unfold showEmotionalSupportPopup.
  destruct (popupTimeoutRef (refs s)); split; reflexivity.
Qed.

(** C3, as amended.  On the API-success path an event whose emotion is
    "stressed" or "sad" makes the popup visible, showing that emotion.  An
    event recorded by the classifier-failure fallback or by a forced update
    leaves the popup as it was: visibility, shown emotion, pending
    auto-dismiss. *)
Theorem C3_popup_follows_api_events_only (e : string) (q : Q) (c : Closure)
    (d : Draws) (now : Z) (s : State) :
  isTrigger e = true ->
  let viaApi := snd (captureResume (ApiResolved e q) d now s) in
  let viaFallback := snd (captureResume ApiFailed d now s) in
  let viaForce := forceUpdate c d now s in
  (showEmotionPopup (react viaApi) = true /\
   popupEmotion (react viaApi) = Some e) /\
  (showEmotionPopup (react viaFallback) = showEmotionPopup (react s) /\
   popupEmotion (react viaFallback) = popupEmotion (react s) /\
   popupTimeoutRef (refs viaFallback) = popupTimeoutRef (refs s) /\
   timeouts (browser viaFallback) = timeouts (browser s)) /\
  (showEmotionPopup (react viaForce) = showEmotionPopup (react s) /\
   popupEmotion (react viaForce) = popupEmotion (react s) /\
   popupTimeoutRef (refs viaForce) = popupTimeoutRef (refs s) /\
   timeouts (browser viaForce) = timeouts (browser s)).
Proof.
  intros He. unfold isTrigger in He. cbv zeta. split; [| split].
  - unfold captureResume, processVideoFrame_resume. rewrite He.
    match goal with
    | |- context [showEmotionalSupportPopup ?e ?n ?s] =>
      destruct (showPopup_visible e n s) as [Hv Hp]
    end.
    split; cbn; assumption.
  - unfold captureResume, processVideoFrame_resume.
    match goal with
    | |- context [updateMetricsBasedOnEmotion ?e ?a ?b ?c ?s] =>
      destruct (updateMetrics_writes e a b c s) as (? & ? & ? & ->)
    end.
    repeat split.
  - unfold forceUpdate, forceEmotionUpdate.
    destruct (c_isAnalyzing c); [| repeat split].
    match goal with
    | |- context [updateMetricsBasedOnEmotion ?e ?a ?b ?c ?s] =>
      destruct (updateMetrics_writes e a b c s) as (? & ? & ? & ->)
    end.
    repeat split.
Qed.

Lemma C3_popup_follows_api_events_only_witness :
  showEmotionPopup
    (react (snd (captureResume (ApiResolved "sad" 0.9%Q) zeroDraws 5300
                   capturing))) = true /\
  popupEmotion
    (react (snd (captureResume (ApiResolved "sad" 0.9%Q) zeroDraws 5300
                   capturing))) = Some "sad".
Proof.
  exact (proj1 (C3_popup_follows_api_events_only "sad" 0.9%Q (render started)
                  zeroDraws 5300 capturing eq_refl)).
Defined.

(** C3 as stated fails: a forced update of the started hook whose draw
    selects "stressed" records that event and the popup stays hidden; so does
    the fallback after a classifier failure. *)
Lemma C3_synthetic_stressed_event_no_popup :
  let forced :=
    forceUpdate (render started) (mkDraws (5 # 7) 0 0 0 0) 5000 started in
  let fellBack :=
    snd (captureResume ApiFailed (mkDraws (5 # 6) 0 0 0 0) 5300 capturing) in
  unit_draw (5 # 7) /\ unit_draw (5 # 6) /\
  isTrigger "stressed" = true /\
  emotionHistory (react forced) =
    emotionHistory (react started) ++ [mkEvent "stressed" 5000 (random_score 0)] /\
  showEmotionPopup (react forced) = false /\
  emotionHistory (react fellBack) =
    emotionHistory (react capturing) ++ [mkEvent "stressed" 5300 (random_score 0)] /\
  showEmotionPopup (react fellBack) = false.
Proof.
  cbv zeta. unfold unit_draw. repeat split; try lra.
Qed.

(** ** Rate limit *)

(** C5.  A call of [processVideoFrame] made less than 1000 ms after the
    recorded time of the last attempt returns at once, for every closure:
    no React cell changes (no event, no countdown reset, no processing flag),
    no ref changes (the token stays as it is), no toast is shown, no timer,
    stream or controller is touched.  Only the console may receive a line. *)
Theorem C5_capture_too_soon_is_noop (c : Closure) (now : Z) (s : State) :
  now - lastApiCallTimeRef (refs s) < 1000 ->
  let r := processVideoFrame_begin c now s in
  fst r = Fulfilled /\
  react (snd r) = react s /\
  refs (snd r) = refs s /\
  sameBrowserButConsole (browser s) (browser (snd r)).
Proof.
  intros Hsoon. cbv zeta. unfold processVideoFrame_begin, sameBrowserButConsole.
  destruct (videoRef (refs s)) as [vid |];
    [destruct (canvasRef (refs s)) as [cv |] |]; try now repeat split.
  destruct (negb (c_isAnalyzing c) || c_isProcessing c); [now repeat split |].
  destruct (Z.ltb_spec (now - lastApiCallTimeRef (refs s)) 1000) as [_ | Hge];
    [| lia].
  now repeat split.
Qed.

Lemma C5_capture_too_soon_is_noop_witness :
  let r := processVideoFrame_begin (render captured) 5600 captured in
  fst r = Fulfilled /\
  react (snd r) = react captured /\
  refs (snd r) = refs captured /\
  sameBrowserButConsole (browser captured) (browser (snd r)).
Proof.
  apply (C5_capture_too_soon_is_noop (render captured) 5600 captured).
  vm_compute. reflexivity.
Defined.

(** The sample call is stopped by the rate limit itself, not by the guard
    before it. *)
Example capture_too_soon_logs :
  console (browser (snd (processVideoFrame_begin (render captured) 5600 captured))) =
  console (browser captured) ++
  [mkLog LevelLog "Skipping API call, too soon (ms since last call)"
     [ArgNum 600]].
Proof. reflexivity. Qed.

(** [processVideoFrame] never rejects, so the [catch] of its callers never
    forces an update. *)
Lemma processVideoFrame_never_rejects (c : Closure) (o : ClassifierOutcome)
    (d : Draws) (now : Z) (s : State) :
  fst (processVideoFrame_begin c now s) <> Rejected /\
  fst (captureResume o d now s) = Fulfilled.
Proof.
  split.
  - unfold processVideoFrame_begin. hook_cases; discriminate.
  - destruct o; reflexivity.
Qed.

(** ** Classifier failure *)

(** C6.  When the classifier call fails, the continuation of
    [processVideoFrame] settles normally ([Fulfilled], nothing reaches the
    [catch] of the caller) and shows one error toast.  It records the event
    [ev]: a label of the fallback list (hence of the 7-label set), the given
    time, a score in [0.7, 1).  [ev] becomes the current emotion, is appended
    to the history as its last entry, and the three metrics are rewritten for
    its label.  At the end the processing flag is cleared and the token is
    null. *)
Theorem C6_failure_falls_back (d : Draws) (now : Z) (s : State) :
  unit_draws d ->
  let r := captureResume ApiFailed d now s in
  let s' := snd r in
  let ev :=
    mkEvent (fallbackLabel (dLabel d)) now (random_score (dScore d)) in
  fst r = Fulfilled /\
  In (emotion ev) dummyEmotions7 /\
  (0.7 <= score ev /\ score ev < 1)%Q /\
  currentEmotion (react s') = Some (emotion ev) /\
  emotionHistory (react s') = appendEvent ev (emotionHistory (react s)) /\
  (exists front, emotionHistory (react s') = front ++ [ev]) /\
  in_band (stressLevel (react s')) (specStressBand (emotion ev)) /\
  in_band (engagementLevel (react s')) (specEngagementBand (emotion ev)) /\
  in_band (focusLevel (react s')) (codeFocusBand (emotion ev)) /\
  toasts (browser s') =
    toasts (browser s) ++
    [toast_error "Error analyzing emotion. Using simulated data."] /\
  isProcessing (react s') = false /\
  abortControllerRef (refs s') = None /\
  isAnalyzing (react s') = isAnalyzing (react s).
Proof.
  intros (HL & HSc & HS & HE & HF). cbv zeta.
  unfold captureResume, processVideoFrame_resume. cbn [fst snd emotion score].
  change (array_get dummyEmotions6
            (random_below (dLabel d) (Z.of_nat (List.length dummyEmotions6))))
    with (fallbackLabel (dLabel d)).
  set (lbl := fallbackLabel (dLabel d)).
  set (ev := mkEvent lbl now (random_score (dScore d))).
  match goal with
  | |- context [updateMetricsBasedOnEmotion lbl ?a ?b ?c ?s0] =>
    pose proof (stressLevel_band lbl a b c s0 HS) as BS;
    pose proof (engagementLevel_band lbl a b c s0 HE) as BE;
    pose proof (focusLevel_band lbl a b c s0 HF) as BF;
    destruct (updateMetrics_writes lbl a b c s0) as (x & y & z & Hw)
  end.
  rewrite Hw in *. cbn in BS, BE, BF.
  assert (Hh : emotionHistory
                 (react (processVideoFrame_finally
                           (setFocusLevel z
                              (setEngagementLevel y
                                 (setStressLevel x
                                    (setEmotionHistory (appendEvent ev)
                                       (setCurrentEmotion lbl
                                          (toast
                                             (toast_error
                                                "Error analyzing emotion. Using simulated data.")
                                             (console_error
                                                "Error detecting emotion:"
                                                [ArgError] s))))))))) =
               appendEvent ev (emotionHistory (react s))) by reflexivity.
  assert (Hin : In lbl dummyEmotions7)
    by (apply dummyEmotions6_incl; now apply fallbackLabel_in).
  destruct (random_score_range (dScore d) HSc) as [Hlo Hhi].
  destruct (appendEvent_last ev (emotionHistory (react s)))
    as (front & Hfront & _).
  clearbody lbl.
  split; [reflexivity |]. split; [exact Hin |]. split; [now split |].
  split; [reflexivity |]. split; [exact Hh |].
  split; [exists front; now rewrite Hh |].
  split; [exact BS |]. split; [exact BE |]. split; [exact BF |].
  repeat split.
Qed.

Lemma unit_draws_zero : unit_draws zeroDraws.
Proof. unfold unit_draws, unit_draw. cbn. repeat split; lra. Qed.

Lemma C6_failure_falls_back_witness :
  let s' := snd (captureResume ApiFailed zeroDraws 5300 capturing) in
  currentEmotion (react s') = Some "happy" /\
  isProcessing (react s') = false /\
  abortControllerRef (refs s') = None.
Proof.
  pose proof (C6_failure_falls_back zeroDraws 5300 capturing unit_draws_zero)
    as H.
  cbv zeta in H.
  destruct H as (_ & _ & _ & Hc & _ & _ & _ & _ & _ & _ & Hp & Ha & _).
  exact (conj Hc (conj Hp Ha)).
Defined.

(** ** Forced update *)



(** A closure that is not analyzing makes the call return at once. *)
Lemma forceUpdate_idle (c : Closure) (d : Draws) (now : Z) (s : State) :
  c_isAnalyzing c = false -> forceUpdate c d now s = s.
Proof.
  intros Hc. unfold forceUpdate, forceEmotionUpdate. now rewrite Hc.
Qed.

(** ** Stopping *)

Lemma stopAnalysis_react (s : State) :
  react (stopAnalysis s) = Upd.isAnalyzing' false (react s).
Proof.
  destruct s as [r [t v cv m p l a] b].
  destruct t, m, v, a; reflexivity.
Qed.

Lemma stopAnalysis_refs (s : State) :
  refs (stopAnalysis s) =
  Upd.abortControllerRef' None
    (Upd.videoRef'
       (match videoRef (refs s) with
        | Some _ => Some (mkVideo None)
        | None => None
        end)
       (Upd.mediaStreamRef' None (Upd.timerIntervalRef' None (refs s)))).
Proof.
  destruct s as [r [t v cv m p l a] b].
  destruct t, m, v, a; reflexivity.
Qed.

Lemma stopAnalysis_released (s : State) :
  released (stopAnalysis s) /\ isAnalyzing (react (stopAnalysis s)) = false.
Proof.
  unfold released. rewrite stopAnalysis_refs, stopAnalysis_react.
  repeat split.
Qed.

Lemma stopAnalysis_browser (s : State) :
  let b := browser s in
  let b' := browser (stopAnalysis s) in
  nextHandle b' = nextHandle b /\
  timeouts b' = timeouts b /\
  intervals b' =
    match timerIntervalRef (refs s) with
    | Some h => filter (fun i => negb (Z.eqb i h)) (intervals b)
    | None => intervals b
    end /\
  stoppedStreams b' =
    stoppedStreams b ++
    match mediaStreamRef (refs s) with Some st => [st] | None => [] end /\
  abortedControllers b' =
    abortedControllers b ++
    match abortControllerRef (refs s) with Some h => [h] | None => [] end /\
  toasts b' = toasts b ++ [toast_info "Emotion detection stopped"].
Proof.
  destruct s as [r [t v cv m p l a] b].
  destruct t, m, v, a; cbn; rewrite ?app_nil_r; repeat split.
Qed.

(** C9.  [stopAnalysis] is a total function of the state, every release in
    it is guarded by a null test.  After the first call, from any state, the
    stream reference, the timer handle and the token are null and
    [isAnalyzing] is false; the stream that was held is stopped, the
    interval that was held is cleared and the controller that was held is
    aborted.  The same holds after the second call, which finds nothing to
    release: it only logs and shows its toast again. *)
Theorem C9_stop_twice_releases (s : State) :
  let s1 := stopAnalysis s in
  let s2 := stopAnalysis s1 in
  (released s1 /\ isAnalyzing (react s1) = false) /\
  (forall st, mediaStreamRef (refs s) = Some st ->
              In st (stoppedStreams (browser s1))) /\
  (forall h, timerIntervalRef (refs s) = Some h ->
             ~ In h (intervals (browser s1))) /\
  (forall h, abortControllerRef (refs s) = Some h ->
             In h (abortedControllers (browser s1))) /\
  (released s2 /\ isAnalyzing (react s2) = false) /\
  react s2 = react s1 /\
  refs s2 = refs s1 /\
  nextHandle (browser s2) = nextHandle (browser s1) /\
  timeouts (browser s2) = timeouts (browser s1) /\
  intervals (browser s2) = intervals (browser s1) /\
  stoppedStreams (browser s2) = stoppedStreams (browser s1) /\
  abortedControllers (browser s2) = abortedControllers (browser s1) /\
  toasts (browser s2) =
    toasts (browser s1) ++ [toast_info "Emotion detection stopped"].
Proof.
  cbv zeta.
  pose proof (stopAnalysis_released s) as R1.
  pose proof (stopAnalysis_released (stopAnalysis s)) as R2.
  pose proof (stopAnalysis_browser s) as B1. cbv zeta in B1.
  destruct B1 as (_ & _ & Bi & Bs & Ba & _).
  pose proof (stopAnalysis_browser (stopAnalysis s)) as B2. cbv zeta in B2.
  rewrite (stopAnalysis_refs s) in B2. cbn in B2. rewrite !app_nil_r in B2.
  destruct B2 as (B2n & B2t & B2i & B2s & B2a & B2o).
  split; [exact R1 |].
  split; [intros st Hst; rewrite Bs, Hst; apply in_or_app; right; now left |].
  split.
  { intros h Hh. rewrite Bi, Hh. intros Hin. apply filter_In in Hin.
    destruct Hin as [_ Hne]. rewrite Z.eqb_refl in Hne. discriminate. }
  split; [intros h Hh; rewrite Ba, Hh; apply in_or_app; right; now left |].
  split; [exact R2 |].
  split; [now rewrite !stopAnalysis_react |].
  split.
  { rewrite (stopAnalysis_refs (stopAnalysis s)), (stopAnalysis_refs s).
    destruct (refs s) as [t v cv m p l a]. destruct v; reflexivity. }
  repeat split; assumption.
Qed.

(** ** Data kept across stop and restart *)




(** ** Support-popup timer *)

Lemma filter_none {A : Type} (f : A -> bool) (l : list A) :
  (forall y, In y l -> f y = false) -> filter f l = [].
Proof.
  induction l as [| a l IH]; intros H; [reflexivity |].
  cbn [filter]. rewrite (H a (or_introl eq_refl)).
  apply IH. intros y Hy. apply H. now right.
Qed.

Lemma showPopup_timer (e : string) (now : Z) (s : State) :
  let s' := showEmotionalSupportPopup e now s in
  let h := nextHandle (browser s) in
  popupTimeoutRef (refs s') = Some h /\
  nextHandle (browser s') = h + 1 /\
  timeouts (browser s') =
    pendingAfterClear s ++ [mkTimeout h (now + 8000) HidePopup].
Proof.
  unfold showEmotionalSupportPopup, pendingAfterClear.
  destruct (popupTimeoutRef (refs s)); repeat split.
Qed.

Lemma pendingAfterClear_no_popup (s : State) :
  popupTimeoutsTracked s ->
  forall y, In y (pendingAfterClear s) -> isHidePopup y = false.
Proof.
  intros Htr y Hy. unfold pendingAfterClear in Hy. unfold isHidePopup.
  destruct (action y) eqn:Ha; [| reflexivity]. exfalso.
  destruct (popupTimeoutRef (refs s)) as [h |] eqn:Hp.
  - apply filter_In in Hy. destruct Hy as [Hin Hne].
    specialize (Htr y Hin Ha). rewrite Hp in Htr. injection Htr as ->.
    rewrite Z.eqb_refl in Hne. discriminate.
  - specialize (Htr y Hy Ha). rewrite Hp in Htr. discriminate.
Qed.

Lemma showPopup_tracked (e : string) (now : Z) (s : State) :
  popupTimeoutsTracked s ->
  popupTimeoutsTracked (showEmotionalSupportPopup e now s).
Proof.
  intros Htr x Hx Ha.
  destruct (showPopup_timer e now s) as (Hp & _ & Ht).
  rewrite Hp. rewrite Ht in Hx. apply in_app_or in Hx.
  destruct Hx as [Hx | [<- | []]]; [| reflexivity].
  pose proof (pendingAfterClear_no_popup s Htr x Hx) as Hn.
  unfold isHidePopup in Hn. rewrite Ha in Hn. discriminate.
Qed.

(** Timeouts that are not popup timeouts let the clock pass. *)
Lemma elapse_skip (t : Z) (l : list Timeout) (acc : State) :
  (forall y, In y l -> isHidePopup y = false) ->
  fold_left
    (fun a x =>
       if isHidePopup x && Z.leb (due x) t then fireHidePopup x a else a)
    l acc = acc.
Proof.
  revert acc. induction l as [| y l IH]; intros acc Hl; [reflexivity |].
  cbn [fold_left]. rewrite (Hl y (or_introl eq_refl)). cbn [andb].
  apply IH. intros z Hz. apply Hl. now right.
Qed.

(** The clock after a trigger: nothing happens before the timeout is due,
    the callback runs once it is. *)
Lemma elapse_after_trigger (e : string) (now t : Z) (s : State) :
  popupTimeoutsTracked s ->
  let s' := showEmotionalSupportPopup e now s in
  elapsePopup t s' =
  if Z.leb (now + 8000) t
  then fireHidePopup (mkTimeout (nextHandle (browser s)) (now + 8000) HidePopup) s'
  else s'.
Proof.
  intros Htr. cbv zeta. unfold elapsePopup.
  destruct (showPopup_timer e now s) as (_ & _ & ->).
  rewrite fold_left_app.
  rewrite (elapse_skip t _ _ (pendingAfterClear_no_popup s Htr)).
  reflexivity.
Qed.

Lemma fired_popup_hidden (e : string) (now : Z) (s : State) :
  popupTimeoutsTracked s ->
  let s' := showEmotionalSupportPopup e now s in
  let s'' :=
    fireHidePopup
      (mkTimeout (nextHandle (browser s)) (now + 8000) HidePopup) s' in
  showEmotionPopup (react s'') = false /\
  popupEmotion (react s'') = Some e /\
  popupTimeoutRef (refs s'') = None /\
  filter isHidePopup (timeouts (browser s'')) = [].
Proof.
  intros Htr. cbv zeta.
  destruct (showPopup_timer e now s) as (_ & _ & Ht).
  destruct (showPopup_visible e now s) as [_ Hp].
  unfold fireHidePopup, hidePopupCallback, window_clearTimeout.
  cbn [react refs browser Upd.on_react Upd.on_refs Upd.on_browser
       setShowEmotionPopup showEmotionPopup popupEmotion popupTimeoutRef
       timeouts handle Upd.showEmotionPopup' Upd.popupTimeoutRef'
       Upd.timeouts'].
  split; [reflexivity |]. split; [exact Hp |]. split; [reflexivity |].
  rewrite Ht, filter_app. cbn [filter handle].
  rewrite Z.eqb_refl. cbn [negb]. rewrite app_nil_r.
  apply filter_none.
  intros y Hy. apply filter_In in Hy. destruct Hy as [Hy _].
  now apply pendingAfterClear_no_popup with (s := s).
Qed.

(** C4.  Let the popup be triggered for "stressed" at [t0] and for "sad" at
    [t1], less than 8000 ms later, with nothing else happening.  The first
    trigger arms an auto-dismiss due at [t0 + 8000], still pending at [t1].
    The second trigger cancels it: its handle is no longer pending.  One
    popup is visible and shows "sad"; one auto-dismiss is pending, due at
    [t1 + 8000].  Until then the clock changes nothing (so the popup is still
    shown at [t0 + 8000]); from [t1 + 8000] on the popup is hidden and no
    auto-dismiss is pending. *)
Theorem C4_second_trigger_restarts_dismiss (s : State) (t0 t1 : Z) :
  popupTimeoutsTracked s ->
  t0 <= t1 < t0 + 8000 ->
  let h1 := nextHandle (browser s) in
  let s1 := showEmotionalSupportPopup "stressed" t0 s in
  let s2 := showEmotionalSupportPopup "sad" t1 (elapsePopup t1 s1) in
  (showEmotionPopup (react s1) = true /\
   popupEmotion (react s1) = Some "stressed" /\
   popupTimeoutRef (refs s1) = Some h1 /\
   In (mkTimeout h1 (t0 + 8000) HidePopup) (timeouts (browser s1)) /\
   elapsePopup t1 s1 = s1) /\
  ~ In h1 (map handle (timeouts (browser s2))) /\
  (showEmotionPopup (react s2) = true /\
   popupEmotion (react s2) = Some "sad") /\
  (popupTimeoutRef (refs s2) = Some (h1 + 1) /\
   filter isHidePopup (timeouts (browser s2)) =
     [mkTimeout (h1 + 1) (t1 + 8000) HidePopup]) /\
  (forall t, t1 <= t < t1 + 8000 -> elapsePopup t s2 = s2) /\
  (forall t, t1 + 8000 <= t ->
     let s3 := elapsePopup t s2 in
     showEmotionPopup (react s3) = false /\
     popupTimeoutRef (refs s3) = None /\
     filter isHidePopup (timeouts (browser s3)) = []).
Proof.
  intros Htr Ht. cbv zeta.
  set (s1 := showEmotionalSupportPopup "stressed" t0 s).
  assert (Htr1 : popupTimeoutsTracked s1) by now apply showPopup_tracked.
  destruct (showPopup_timer "stressed" t0 s) as (Hp1 & Hn1 & Ht1).
  destruct (showPopup_visible "stressed" t0 s) as [Hv1 He1].
  fold s1 in Hp1, Hn1, Ht1, Hv1, He1.
  assert (Hstill : elapsePopup t1 s1 = s1).
  { unfold s1. rewrite (elapse_after_trigger "stressed" t0 t1 s Htr).
    destruct (Z.leb_spec (t0 + 8000) t1); [lia | reflexivity]. }
  rewrite Hstill.
  destruct (showPopup_timer "sad" t1 s1) as (Hp2 & _ & Ht2).
  destruct (showPopup_visible "sad" t1 s1) as [Hv2 He2].
  rewrite Hn1 in Hp2, Ht2.
  split.
  { repeat split; try assumption.
    rewrite Ht1. apply in_or_app. right. now left. }
  split.
  { rewrite Ht2, map_app. intros Hin. apply in_app_or in Hin.
    destruct Hin as [Hin | [Hin | []]]; [| cbn in Hin; lia].
    apply in_map_iff in Hin. destruct Hin as (y & Hy & Hin).
    unfold pendingAfterClear in Hin. rewrite Hp1 in Hin.
    apply filter_In in Hin. destruct Hin as [_ Hne].
    rewrite Hy, Z.eqb_refl in Hne. discriminate. }
  split; [now split |].
  split.
  { split; [exact Hp2 |].
    rewrite Ht2, filter_app.
    rewrite (filter_none _ _ (pendingAfterClear_no_popup s1 Htr1)).
    reflexivity. }
  split.
  - intros t Hlt. rewrite (elapse_after_trigger "sad" t1 t s1 Htr1).
    destruct (Z.leb_spec (t1 + 8000) t); [lia | reflexivity].
  - intros t Hge. rewrite (elapse_after_trigger "sad" t1 t s1 Htr1).
    destruct (Z.leb_spec (t1 + 8000) t); [| lia].
    destruct (fired_popup_hidden "sad" t1 s1 Htr1) as (Hh & _ & Hr & Hf).
    repeat split; assumption.
Qed.

Lemma started_tracked : popupTimeoutsTracked started.
Proof. intros x [<- | []] Ha. discriminate Ha. Qed.

Lemma C4_second_trigger_restarts_dismiss_witness :
  let s1 := showEmotionalSupportPopup "stressed" 5000 started in
  let s2 := showEmotionalSupportPopup "sad" 9000 (elapsePopup 9000 s1) in
  showEmotionPopup (react (elapsePopup 13000 s2)) = true /\
  popupEmotion (react (elapsePopup 13000 s2)) = Some "sad" /\
  showEmotionPopup (react (elapsePopup 17000 s2)) = false.
Proof.
  pose proof (C4_second_trigger_restarts_dismiss started 5000 9000
                started_tracked ltac:(lia)) as H.
  cbv zeta in H. destruct H as (_ & _ & (Hv & He) & _ & Hstay & Hgone).
  cbv zeta. rewrite (Hstay 13000 ltac:(lia)).
  destruct (Hgone 17000 ltac:(lia)) as (Hh & _).
  exact (conj Hv (conj He Hh)).
Defined.

(** The same run, evaluated. *)
Example popup_timeline :
  let s1 := showEmotionalSupportPopup "stressed" 5000 started in
  let s2 := showEmotionalSupportPopup "sad" 9000 (elapsePopup 9000 s1) in
  timeouts (browser s1) =
    [mkTimeout 1 2000 FirstCapture; mkTimeout 3 13000 HidePopup] /\
  timeouts (browser s2) =
    [mkTimeout 1 2000 FirstCapture; mkTimeout 4 17000 HidePopup] /\
  showEmotionPopup (react (elapsePopup 16999 s2)) = true /\
  showEmotionPopup (react (elapsePopup 17000 s2)) = false /\
  timeouts (browser (elapsePopup 17000 s2)) = [mkTimeout 1 2000 FirstCapture].
Proof. repeat split. Qed.

(** ** What each operation leaves alone *)

Lemma startAnalysis_begin_views (s : State) :
  timerView (startAnalysis_begin s) = timerView s /\
  popupTimerView (startAnalysis_begin s) = popupTimerView s.
Proof.
  unfold startAnalysis_begin, requestCameraPermission_begin, releaseStream,
    setSrcObject, timerView, popupTimerView.
  destruct s as [r [t v cv m p l a] b]. destruct m, v; split; reflexivity.
Qed.

Lemma camera_answer_views (answer : option Z) (s : State) :
  timerView (snd (requestCameraPermission_resume answer s)) = timerView s /\
  popupTimerView (snd (requestCameraPermission_resume answer s)) =
  popupTimerView s.
Proof.
  unfold requestCameraPermission_resume, setSrcObject, timerView,
    popupTimerView.
  destruct s as [r [t v cv m p l a] b]. destruct answer, v; split; reflexivity.
Qed.

Lemma mic_views (c : Closure) (mic : bool) (s : State) :
  timerView (snd (startAnalysis_mic c mic s)) = timerView s /\
  popupTimerView (snd (startAnalysis_mic c mic s)) = popupTimerView s.
Proof.
  unfold startAnalysis_mic, requestMicPermission_resume,
    requestMicPermission_begin, timerView, popupTimerView.
  destruct (c_micPermission c) as [[|] |], mic; split; reflexivity.
Qed.

Lemma capture_begin_views (c : Closure) (now : Z) (s : State) :
  timerView (snd (processVideoFrame_begin c now s)) = timerView s /\
  popupTimerView (snd (processVideoFrame_begin c now s)) = popupTimerView s.
Proof.
  unfold processVideoFrame_begin, processVideoFrame_finally, timerView,
    popupTimerView.
  destruct s as [r [t v cv m p l a] b].
  hook_cases; split; reflexivity.
Qed.

Lemma force_views (c : Closure) (d : Draws) (now : Z) (s : State) :
  timerView (forceUpdate c d now s) = timerView s /\
  popupTimerView (forceUpdate c d now s) = popupTimerView s.
Proof.
  unfold forceUpdate, forceEmotionUpdate, timerView, popupTimerView.
  destruct (c_isAnalyzing c); cbn [negb]; [| split; reflexivity].
  metrics_out. split; reflexivity.
Qed.

Lemma showPopup_timerView (e : string) (now : Z) (s : State) :
  timerView (showEmotionalSupportPopup e now s) = timerView s.
Proof.
  unfold showEmotionalSupportPopup, timerView.
  destruct (popupTimeoutRef (refs s)); reflexivity.
Qed.

Lemma capture_resume_timerView (o : ClassifierOutcome) (d : Draws) (now : Z)
    (s : State) :
  timerView (snd (captureResume o d now s)) = timerView s.
Proof.
  unfold captureResume, processVideoFrame_resume.
  destruct o as [e q |]; metrics_out.
  - destruct ((e =? "stressed") || (e =? "sad")).
    + match goal with
      | |- context [showEmotionalSupportPopup ?e ?n ?s0] =>
        pose proof (showPopup_timerView e n s0) as Hv
      end.
      unfold timerView in *. cbn in *. exact Hv.
    + reflexivity.
  - reflexivity.
Qed.

Lemma updateTimer_views (c : Closure) (now : Z) (s : State) :
  timerView (snd (updateTimer c now s)) = timerView s /\
  popupTimerView (snd (updateTimer c now s)) = popupTimerView s.
Proof.
  unfold updateTimer.
  destruct (Z.leb (timerCount (react s)) 1); [| split; reflexivity].
  destruct (capture_begin_views c now s) as [Ht Hp].
  destruct (processVideoFrame_begin c now s) as [p s0]. cbn [snd] in *.
  rewrite <- Ht, <- Hp. split; reflexivity.
Qed.

Lemma fireHidePopup_timerView (t : Timeout) (s : State) :
  timerView (fireHidePopup t s) = timerView s.
Proof. reflexivity. Qed.

Lemma clearTimeout_timerView (h : Z) (s : State) :
  timerView (window_clearTimeout h s) = timerView s.
Proof. reflexivity. Qed.

(** ** Invariants of the reachable states *)

Lemma timerInvariant_view (s s' : State) :
  timerView s' = timerView s -> timerInvariant s -> timerInvariant s'.
Proof.
  unfold timerView, timerInvariant. intros Hv. injection Hv as -> -> ->.
  trivial.
Qed.

Lemma tracked_view (s s' : State) :
  popupTimerView s' = popupTimerView s ->
  popupTimeoutsTracked s -> popupTimeoutsTracked s'.
Proof.
  unfold popupTimerView, popupTimeoutsTracked. intros Hv.
  injection Hv as -> ->. trivial.
Qed.

Lemma start_finish_timerInvariant (c : Closure) (hasCamera hasMic : bool)
    (rS rE rF : Q) (now : Z) (s : State) :
  timerInvariant s ->
  timerInvariant (startAnalysis_finish c hasCamera hasMic rS rE rF now s).
Proof.
  unfold startAnalysis_finish, timerInvariant. intros [Hi Ha].
  destruct (hasCamera && hasMic); [| split; assumption].
  destruct (negb (truthy (c_currentEmotion c))); metrics_out;
    destruct (timerIntervalRef (refs s)) as [h |] eqn:Hr; cbn in *;
    rewrite Hr; cbn; rewrite ?Hr;
    (split; [| intros Hf; discriminate Hf]); intros i Hin;
    try (now apply Hi);
    apply in_app_or in Hin; destruct Hin as [Hin | [<- | []]];
    try reflexivity; specialize (Hi i Hin); discriminate Hi.
Qed.

Lemma start_finish_tracked (c : Closure) (hasCamera hasMic : bool)
    (rS rE rF : Q) (now : Z) (s : State) :
  popupTimeoutsTracked s ->
  popupTimeoutsTracked (startAnalysis_finish c hasCamera hasMic rS rE rF now s).
Proof.
  unfold startAnalysis_finish, popupTimeoutsTracked. intros Htr.
  destruct (hasCamera && hasMic); [| exact Htr].
  destruct (negb (truthy (c_currentEmotion c))); metrics_out;
    destruct (timerIntervalRef (refs s)) as [h |] eqn:Hr; cbn in *;
    rewrite Hr; cbn; intros tm Hin Hact; apply in_app_or in Hin;
    destruct Hin as [Hin | [<- | []]]; try discriminate Hact;
    now apply Htr.
Qed.

Lemma stop_timerInvariant (s : State) :
  timerInvariant s -> timerInvariant (stopAnalysis s).
Proof.
  intros [Hi _]. unfold timerInvariant.
  pose proof (stopAnalysis_browser s) as B. cbv zeta in B.
  destruct B as (_ & _ & Bi & _).
  rewrite Bi, stopAnalysis_refs. cbn.
  split; [| reflexivity]. intros i Hin. exfalso.
  destruct (timerIntervalRef (refs s)) as [h |] eqn:Hr.
  - apply filter_In in Hin. destruct Hin as [Hin Hne].
    specialize (Hi i Hin). injection Hi as ->.
    rewrite Z.eqb_refl in Hne. discriminate.
  - specialize (Hi i Hin). discriminate.
Qed.

Lemma unmount_invariants (s : State) :
  timerInvariant s /\ popupTimeoutsTracked s ->
  timerInvariant (unmountCleanup s) /\ popupTimeoutsTracked (unmountCleanup s).
Proof.
  intros [[Hi Ha] Htr]. unfold unmountCleanup, timerInvariant.
  destruct s as [r [t v cv m p l a] b]. cbn in *.
  split; [split |].
  - destruct t, m, p, a; cbn; intros i Hin;
      try apply filter_In in Hin; try apply Hi; tauto.
  - destruct t, m, p, a; cbn; exact Ha.
  - destruct t, m, p, a; cbn; intros x Hx Hact; cbn in Hx;
      try apply filter_In in Hx; apply Htr; tauto.
Qed.

Lemma stop_tracked (s : State) :
  popupTimeoutsTracked s -> popupTimeoutsTracked (stopAnalysis s).
Proof.
  apply tracked_view. unfold popupTimerView.
  pose proof (stopAnalysis_browser s) as B. cbv zeta in B.
  destruct B as (_ & -> & _). rewrite stopAnalysis_refs. reflexivity.
Qed.

Lemma clearTimeout_tracked (h : Z) (s : State) :
  popupTimeoutsTracked s -> popupTimeoutsTracked (window_clearTimeout h s).
Proof.
  intros Htr x Hx Ha. cbn in Hx. apply filter_In in Hx.
  destruct Hx as [Hx _]. exact (Htr x Hx Ha).
Qed.

Lemma fireHidePopup_tracked (t : Timeout) (s : State) :
  In t (timeouts (browser s)) -> action t = HidePopup ->
  popupTimeoutsTracked s -> popupTimeoutsTracked (fireHidePopup t s).
Proof.
  intros Hin Hact Htr x Hx Ha. cbn in Hx. apply filter_In in Hx.
  destruct Hx as [Hx Hne].
  pose proof (Htr t Hin Hact) as H1. pose proof (Htr x Hx Ha) as H2.
  rewrite H1 in H2. injection H2 as H2.
  rewrite H2, Z.eqb_refl in Hne. discriminate.
Qed.

Lemma capture_resume_tracked (o : ClassifierOutcome) (d : Draws) (now : Z)
    (s : State) :
  popupTimeoutsTracked s -> popupTimeoutsTracked (snd (captureResume o d now s)).
Proof.
  intros Htr. unfold captureResume, processVideoFrame_resume.
  destruct o as [e q |]; metrics_out.
  - destruct ((e =? "stressed") || (e =? "sad")).
    + match goal with
      | |- context [showEmotionalSupportPopup ?e ?n ?s0] =>
        assert (H0 : popupTimeoutsTracked s0) by exact Htr;
        pose proof (showPopup_tracked e n s0 H0) as H1
      end.
      exact H1.
    + exact Htr.
  - exact Htr.
Qed.

Lemma step_invariants (s s' : State) :
  step s s' ->
  timerInvariant s /\ popupTimeoutsTracked s ->
  timerInvariant s' /\ popupTimeoutsTracked s'.
Proof.
  intros Hstep [Hti Htr]. destruct Hstep.
  - destruct (startAnalysis_begin_views s) as [Hv Hp].
    split; [now apply (timerInvariant_view s) | now apply (tracked_view s)].
  - destruct (camera_answer_views answer s) as [Hv Hp].
    split; [now apply (timerInvariant_view s) | now apply (tracked_view s)].
  - destruct (mic_views c mic s) as [Hv Hp].
    split; [now apply (timerInvariant_view s) | now apply (tracked_view s)].
  - split; [now apply start_finish_timerInvariant
           | now apply start_finish_tracked].
  - split; [now apply stop_timerInvariant | now apply stop_tracked].
  - destruct (capture_begin_views c now s) as [Hv Hp].
    split; [now apply (timerInvariant_view s) | now apply (tracked_view s)].
  - split; [apply (timerInvariant_view s);
            [apply capture_resume_timerView | assumption]
           | now apply capture_resume_tracked].
  - destruct (force_views c d now s) as [Hv Hp].
    split; [now apply (timerInvariant_view s) | now apply (tracked_view s)].
  - destruct (updateTimer_views c now s) as [Hv Hp].
    split; [now apply (timerInvariant_view s) | now apply (tracked_view s)].
  - split; [now apply (timerInvariant_view s)
           | now apply fireHidePopup_tracked].
  - destruct (capture_begin_views c now (window_clearTimeout (handle t) s))
      as [Hv Hp].
    split.
    + apply (timerInvariant_view (window_clearTimeout (handle t) s));
        [exact Hv |].
      now apply (timerInvariant_view s).
    + apply (tracked_view (window_clearTimeout (handle t) s)); [exact Hp |].
      now apply clearTimeout_tracked.
  - split; [now apply (timerInvariant_view s) | now apply (tracked_view s)].
  - split; [now apply (timerInvariant_view s) | now apply (tracked_view s)].
  - split; [now apply (timerInvariant_view s) | now apply (tracked_view s)].
  - now apply unmount_invariants.
Qed.

Lemma reachable_invariants (s : State) :
  reachable s -> timerInvariant s /\ popupTimeoutsTracked s.
Proof.
  induction 1 as [v cv | s s' _ IH Hstep].
  - split.
    + split; [intros i [] | reflexivity].
    + intros x [].
  - exact (step_invariants s s' Hstep IH).
Qed.

(** A step leaves the history alone, appends one event, or (the seed of a
    start) resets it to one event. *)
Lemma step_history (s s' : State) :
  step s s' ->
  emotionHistory (react s') = emotionHistory (react s) \/
  (exists ev,
     emotionHistory (react s') = appendEvent ev (emotionHistory (react s))) \/
  (exists ev, emotionHistory (react s') = [ev]).
Proof.
  intros Hstep. destruct Hstep.
  - left. unfold startAnalysis_begin, requestCameraPermission_begin,
      releaseStream, setSrcObject.
    destruct s as [r [t v cv m p l a] b]. destruct m, v; reflexivity.
  - left. unfold requestCameraPermission_resume, setSrcObject.
    destruct s as [r [t v cv m p l a] b]. destruct answer, v; reflexivity.
  - left. unfold startAnalysis_mic, requestMicPermission_resume,
      requestMicPermission_begin.
    destruct (c_micPermission c) as [[|] |], mic; reflexivity.
  - unfold startAnalysis_finish.
    destruct (hasCamera && hasMic); [| now left].
    destruct (negb (truthy (c_currentEmotion c))); metrics_out;
      destruct (timerIntervalRef (refs s)) eqn:Hr; cbn; rewrite Hr; cbn;
      eauto.
  - left. now rewrite stopAnalysis_react.
  - left. unfold processVideoFrame_begin, processVideoFrame_finally.
    destruct s as [r [t v cv m p l a] b]. hook_cases; reflexivity.
  - pose proof (arrive_history s) as Ha. destruct o as [e q |].
    + right. left. eexists. exact (Ha (ViaApi e q d now)).
    + right. left. eexists. exact (Ha (ViaFallback d now)).
  - pose proof (arrive_history s (ViaForceUpdate c d now)) as Ha.
    cbn [arrive eventOf] in Ha. destruct (c_isAnalyzing c); eauto.
  - left. unfold updateTimer, processVideoFrame_begin,
      processVideoFrame_finally.
    destruct s as [r [t v cv m p l a] b]. hook_cases; reflexivity.
  - now left.
  - left. unfold processVideoFrame_begin, processVideoFrame_finally.
    destruct s as [r [tr v cv m p l a] b]. hook_cases; reflexivity.
  - now left.
  - now left.
  - now left.
  - left. unfold unmountCleanup.
    destruct s as [r [t v cv m p l a] b]. destruct t, m, p, a; reflexivity.
Qed.

(** The history holds at most 12 events in every reachable state. *)
Lemma reachable_historyBounded (s : State) :
  reachable s -> historyBounded s.
Proof.
  unfold historyBounded. induction 1 as [v cv | s s' _ IH Hstep].
  - cbn. lia.
  - destruct (step_history s s' Hstep) as [-> | [[ev ->] | [ev ->]]].
    + exact IH.
    + unfold appendEvent. rewrite slice_last_length. lia.
    + cbn. lia.
Qed.

(** An uninterrupted [startAnalysis] is four steps. *)
Lemma reachable_startAnalysis (c : Closure) (camera : option Z) (mic : bool)
    (rS rE rF : Q) (now : Z) (s : State) :
  reachable s -> reachable (startAnalysis c camera mic rS rE rF now s).
Proof.
  intros Hr. unfold startAnalysis.
  pose proof (reach_step _ _ Hr (step_start_begin s)) as H1.
  pose proof (reach_step _ _ H1
                (step_camera_answer camera (startAnalysis_begin s))) as H2.
  destruct (requestCameraPermission_resume camera (startAnalysis_begin s))
    as [hasCamera s2]. cbn [snd] in H2.
  pose proof (reach_step _ _ H2 (step_mic c mic s2)) as H3.
  destruct (startAnalysis_mic c mic s2) as [hasMic s3]. cbn [snd] in H3.
  exact (reach_step _ _ H3
           (step_start_finish c hasCamera hasMic (mkDraws 0 0 rS rE rF) now s3)).
Qed.

Lemma reachable_micDenied : reachable micDenied.
Proof. apply reachable_startAnalysis. apply reach_init. Qed.

(** C8, as amended.  In every reachable state, whatever the interleaving of
    operations and timers, [isAnalyzing == false] implies that the tick
    timer is stopped: no handle is held and no interval runs.  The capture
    stream is released and the token is null, together with the timer, in
    the state [stopAnalysis] leaves, and in the initial state. *)
Theorem C8_not_analyzing_timer_stopped (s : State) :
  reachable s ->
  (isAnalyzing (react s) = false -> timerStopped s) /\
  (isAnalyzing (react (stopAnalysis s)) = false /\
   timerStopped (stopAnalysis s) /\ released (stopAnalysis s)) /\
  (forall v cv,
     isAnalyzing (react (initialState v cv)) = false /\
     timerStopped (initialState v cv) /\ released (initialState v cv)).
Proof.
  intros Hr.
  assert (Hstopped : forall x, reachable x ->
                               isAnalyzing (react x) = false -> timerStopped x).
  { intros x Hx Hidle. destruct (reachable_invariants x Hx) as [[Hi Ha] _].
    specialize (Ha Hidle). split; [exact Ha |].
    destruct (intervals (browser x)) as [| i rest] eqn:Hl; [reflexivity |].
    specialize (Hi i (or_introl eq_refl)). rewrite Ha in Hi. discriminate. }
  split; [now apply Hstopped |]. split.
  - destruct (stopAnalysis_released s) as [Hrel Hidle].
    split; [exact Hidle |]. split; [| exact Hrel].
    apply Hstopped; [| exact Hidle].
    exact (reach_step _ _ Hr (step_stop s)).
  - intros v cv. repeat split.
Qed.

Lemma C8_not_analyzing_timer_stopped_witness :
  isAnalyzing (react micDenied) = false /\ timerStopped micDenied.
Proof.
  split; [reflexivity |].
  exact (proj1 (C8_not_analyzing_timer_stopped micDenied reachable_micDenied)
           eq_refl).
Defined.

(** C8 as stated fails: after a start whose camera is granted and whose
    microphone is denied, a reachable state, [isAnalyzing] is false while the
    stream is held, shown by the video element, and not stopped. *)
Lemma C8_stream_held_after_mic_denied :
  reachable micDenied /\
  isAnalyzing (react micDenied) = false /\
  mediaStreamRef (refs micDenied) = Some 1 /\
  videoRef (refs micDenied) = Some (mkVideo (Some 1)) /\
  ~ In 1 (stoppedStreams (browser micDenied)) /\
  ~ released micDenied.
Proof.
  split; [exact reachable_micDenied |].
  split; [reflexivity |]. split; [reflexivity |]. split; [reflexivity |].
  split.
  - intros [].
  - intros (H & _). discriminate H.
Qed.

(** * Further properties *)

(** ** Starting *)

(** X1.  A start whose camera is denied changes neither [isAnalyzing] nor the
    tick timer, schedules nothing and seeds nothing.  The camera permission
    is denied; the stream held before is stopped, no stream is held and the
    video element shows none; the toasts are: camera denied, then microphone
    denied if the microphone was asked and denied, then the combined
    failure.  So a session that was analyzing stays analyzing, its timer
    running, without a stream. *)
Theorem start_camera_denied (c : Closure) (mic : bool) (rS rE rF : Q)
    (now : Z) (s : State) :
  let s' := startAnalysis c None mic rS rE rF now s in
  isAnalyzing (react s') = isAnalyzing (react s) /\
  timerIntervalRef (refs s') = timerIntervalRef (refs s) /\
  intervals (browser s') = intervals (browser s) /\
  timeouts (browser s') = timeouts (browser s) /\
  cameraPermission (react s') = Some false /\
  mediaStreamRef (refs s') = None /\
  (forall old, mediaStreamRef (refs s) = Some old ->
               In old (stoppedStreams (browser s'))) /\
  (videoRef (refs s) <> None -> videoRef (refs s') = Some (mkVideo None)) /\
  (currentEmotion (react s') = currentEmotion (react s) /\
   emotionHistory (react s') = emotionHistory (react s) /\
   stressLevel (react s') = stressLevel (react s) /\
   engagementLevel (react s') = engagementLevel (react s) /\
   focusLevel (react s') = focusLevel (react s)) /\
  toasts (browser s') =
    toasts (browser s) ++ [cameraDeniedToast] ++
    (if asksMic c && negb mic then [micDeniedToast] else []) ++
    [bothRequiredToast].
Proof.
  cbv zeta. unfold startAnalysis, startAnalysis_mic, asksMic.
  destruct s as [r [t v cv m p l a] b].
  destruct (c_micPermission c) as [[|] |], mic, m, v; cbn;
    rewrite <- ?app_assoc; repeat split;
    try congruence;
    try (intros old Hold; inversion Hold; subst old);
    try (apply in_or_app; right; now left).
Qed.

Lemma start_camera_denied_witness :
  let s' := startAnalysis (render started) None true 0 0 0 3000 started in
  isAnalyzing (react s') = true /\
  mediaStreamRef (refs s') = None /\
  In 1 (stoppedStreams (browser s')) /\
  videoRef (refs s') = Some (mkVideo None).
Proof.
  pose proof (start_camera_denied (render started) true 0 0 0 3000 started)
    as H.
  cbv zeta in H. destruct H as (Ha & _ & _ & _ & _ & Hm & Hs & Hv & _).
  cbv zeta. split; [exact Ha |]. split; [exact Hm |].
  split; [exact (Hs 1 eq_refl) |]. apply Hv. discriminate.
Defined.

(** X2.  A start whose camera answers with a stream and whose microphone gate
    passes sets [isAnalyzing], holds the new stream and shows it, stops the
    stream held before, schedules the first capture 1000 ms later, and leaves
    one tick timer: the one already held, or else a new one. *)
Theorem start_success (c : Closure) (stream : Z) (mic : bool) (rS rE rF : Q)
    (now : Z) (s : State) :
  micPasses c mic = true ->
  let s' := startAnalysis c (Some stream) mic rS rE rF now s in
  let h := nextHandle (browser s) in
  isAnalyzing (react s') = true /\
  cameraPermission (react s') = Some true /\
  mediaStreamRef (refs s') = Some stream /\
  (videoRef (refs s) <> None ->
   videoRef (refs s') = Some (mkVideo (Some stream))) /\
  (forall old, mediaStreamRef (refs s) = Some old ->
               In old (stoppedStreams (browser s'))) /\
  timeouts (browser s') =
    timeouts (browser s) ++ [mkTimeout h (now + 1000) FirstCapture] /\
  match timerIntervalRef (refs s) with
  | Some held =>
    timerIntervalRef (refs s') = Some held /\
    intervals (browser s') = intervals (browser s)
  | None =>
    timerIntervalRef (refs s') = Some (h + 1) /\
    intervals (browser s') = intervals (browser s) ++ [h + 1]
  end /\
  In (toast_success "Emotion detection started") (toasts (browser s')).
Proof.
  intros Hmic. cbv zeta.
  unfold startAnalysis, startAnalysis_mic, startAnalysis_finish.
  unfold micPasses, asksMic in Hmic.
  destruct s as [r [t v cv m p l a] b].
  destruct (negb (truthy (c_currentEmotion c))); metrics_out;
    destruct (c_micPermission c) as [[|] |], mic; try discriminate Hmic;
    destruct t, m, v; cbn; repeat split;
    try congruence;
    try (intros old Hold; inversion Hold; subst old);
    try (apply in_or_app; right; now left).
Qed.

Lemma start_success_witness :
  isAnalyzing (react started) = true /\
  mediaStreamRef (refs started) = Some 1 /\
  timeouts (browser started) = [mkTimeout 1 2000 FirstCapture].
Proof.
  pose proof (start_success (render idle) 1 true 0 0 0 1000 idle eq_refl) as H.
  cbv zeta in H. destruct H as (Ha & _ & Hm & _ & _ & Ht & _).
  exact (conj Ha (conj Hm Ht)).
Defined.

(** X3.  When such a start runs from a closure that sees no current emotion,
    it seeds the hook: the current emotion is "neutral", the history is
    replaced by the single event ("neutral", now, 0.8), and the metrics are
    drawn in the bands of "neutral": 20-39, 50-79, 50-69. *)
Theorem start_seeds_neutral (c : Closure) (stream : Z) (mic : bool)
    (rS rE rF : Q) (now : Z) (s : State) :
  micPasses c mic = true ->
  truthy (c_currentEmotion c) = false ->
  unit_draw rS -> unit_draw rE -> unit_draw rF ->
  let s' := startAnalysis c (Some stream) mic rS rE rF now s in
  currentEmotion (react s') = Some "neutral" /\
  emotionHistory (react s') = [mkEvent "neutral" now 0.8%Q] /\
  in_band (stressLevel (react s')) (20, 39) /\
  in_band (engagementLevel (react s')) (50, 79) /\
  in_band (focusLevel (react s')) (50, 69).
Proof.
  intros Hmic Hseed HS HE HF. cbv zeta.
  unfold startAnalysis, startAnalysis_mic, startAnalysis_finish.
  unfold micPasses, asksMic in Hmic. rewrite Hseed. cbn [negb].
  pose proof (random_below_range rS 20 eq_refl HS).
  pose proof (random_below_range rE 30 eq_refl HE).
  pose proof (random_below_range rF 20 eq_refl HF).
  destruct s as [r [t v cv m p l a] b].
  destruct (c_micPermission c) as [[|] |], mic; try discriminate Hmic;
    destruct t, m, v; cbn -[random_below Z.add]; unfold in_band;
    cbn [fst snd]; repeat split; lia.
Qed.

Lemma start_seeds_neutral_witness :
  currentEmotion (react started) = Some "neutral" /\
  emotionHistory (react started) = [mkEvent "neutral" 1000 0.8%Q].
Proof.
  pose proof (start_seeds_neutral (render idle) 1 true 0 0 0 1000 idle
                eq_refl eq_refl unit_draw_0 unit_draw_0 unit_draw_0) as H.
  cbv zeta in H. destruct H as (Hc & Hh & _). exact (conj Hc Hh).
Defined.

(** X4.  When the closure of [startAnalysis] already sees the microphone
    granted, the microphone is not asked again: the result does not depend on
    what the device would answer, and the permission cell keeps its value. *)
Theorem start_reuses_mic_grant (c : Closure) (camera : option Z)
    (rS rE rF : Q) (now : Z) (s : State) :
  c_micPermission c = Some true ->
  startAnalysis c camera true rS rE rF now s =
  startAnalysis c camera false rS rE rF now s /\
  micPermission (react (startAnalysis c camera false rS rE rF now s)) =
  micPermission (react s).
Proof.
  intros Hc. unfold startAnalysis, startAnalysis_mic. rewrite Hc.
  split; [reflexivity |].
  destruct (requestCameraPermission_resume camera (startAnalysis_begin s))
    as [hasCamera s1] eqn:Hcam.
  assert (Hm : micPermission (react s1) = micPermission (react s)).
  { unfold requestCameraPermission_resume, startAnalysis_begin,
      requestCameraPermission_begin, releaseStream, setSrcObject in Hcam.
    destruct s as [r [t v cv m p l a] b].
    destruct camera, m, v; cbn in Hcam; injection Hcam as _ <-; reflexivity. }
  rewrite <- Hm. unfold startAnalysis_finish.
  destruct (hasCamera && true); [| reflexivity].
  destruct (negb (truthy (c_currentEmotion c))); metrics_out;
    destruct (timerIntervalRef (refs s1)) eqn:Hr; cbn; rewrite Hr;
    reflexivity.
Qed.

Lemma start_reuses_mic_grant_witness :
  startAnalysis (render captured) (Some 9) true 0 0 0 9000 captured =
  startAnalysis (render captured) (Some 9) false 0 0 0 9000 captured.
Proof.
  exact (proj1 (start_reuses_mic_grant (render captured) (Some 9) 0 0 0 9000
                  captured eq_refl)).
Defined.

(** X22.  A start whose camera answers with a stream and whose microphone
    is asked and denied changes neither [isAnalyzing] nor the tick timer and
    schedules nothing, but it keeps the camera: the new stream is held and
    shown, and this call stops only the stream held before.  The camera
    permission is true, the microphone permission false, and the toasts are
    microphone denied, then the combined failure. *)
Theorem start_mic_denied_keeps_camera (c : Closure) (stream : Z)
    (rS rE rF : Q) (now : Z) (s : State) :
  asksMic c = true ->
  let s' := startAnalysis c (Some stream) false rS rE rF now s in
  isAnalyzing (react s') = isAnalyzing (react s) /\
  timerIntervalRef (refs s') = timerIntervalRef (refs s) /\
  intervals (browser s') = intervals (browser s) /\
  timeouts (browser s') = timeouts (browser s) /\
  cameraPermission (react s') = Some true /\
  micPermission (react s') = Some false /\
  mediaStreamRef (refs s') = Some stream /\
  (videoRef (refs s) <> None ->
   videoRef (refs s') = Some (mkVideo (Some stream))) /\
  stoppedStreams (browser s') =
    stoppedStreams (browser s) ++
    match mediaStreamRef (refs s) with Some old => [old] | None => [] end /\
  toasts (browser s') =
    toasts (browser s) ++ [micDeniedToast; bothRequiredToast].
Proof.
  intros Hask. cbv zeta. unfold startAnalysis, startAnalysis_mic.
  unfold asksMic in Hask.
  destruct s as [r [t v cv m p l a] b].
  destruct (c_micPermission c) as [[|] |]; try discriminate Hask;
    destruct m, v; cbn; rewrite <- ?app_assoc, ?app_nil_r; repeat split;
    congruence.
Qed.

Lemma start_mic_denied_keeps_camera_witness :
  isAnalyzing (react micDenied) = false /\
  mediaStreamRef (refs micDenied) = Some 1 /\
  stoppedStreams (browser micDenied) = [].
Proof.
  pose proof (start_mic_denied_keeps_camera (render idle) 1 0 0 0 1000 idle
                eq_refl) as H.
  cbv zeta in H.
  destruct H as (Ha & _ & _ & _ & _ & _ & Hm & _ & Hs & _).
  exact (conj Ha (conj Hm Hs)).
Defined.

(** ** Camera permission *)

(** X5.  [requestCameraPermission] first gives up the stream that was held:
    it is stopped whatever the device answers.  Granted, the new stream is
    held and shown and the permission is true; denied, no stream is held, the
    permission is false and one error toast is shown. *)
Theorem camera_request_replaces_stream (answer : option Z) (s : State) :
  let r := requestCameraPermission answer s in
  let s' := snd r in
  fst r = granted answer /\
  cameraPermission (react s') = Some (fst r) /\
  mediaStreamRef (refs s') = answer /\
  (videoRef (refs s) <> None -> videoRef (refs s') = Some (mkVideo answer)) /\
  (forall old, mediaStreamRef (refs s) = Some old ->
               In old (stoppedStreams (browser s'))) /\
  toasts (browser s') =
    toasts (browser s) ++ (if granted answer then [] else [cameraDeniedToast]).
Proof.
  cbv zeta. unfold requestCameraPermission, requestCameraPermission_resume,
    requestCameraPermission_begin, releaseStream, setSrcObject.
  destruct s as [r [t v cv m p l a] b].
  destruct answer, m, v; cbn; rewrite ?app_nil_r; repeat split;
    try congruence;
    try (intros old Hold; inversion Hold; subst old);
    try (apply in_or_app; right; now left).
Qed.

Lemma camera_request_replaces_stream_witness :
  let s' := snd (requestCameraPermission (Some 7) started) in
  mediaStreamRef (refs s') = Some 7 /\
  In 1 (stoppedStreams (browser s')) /\
  videoRef (refs s') = Some (mkVideo (Some 7)).
Proof.
  pose proof (camera_request_replaces_stream (Some 7) started) as H.
  cbv zeta in H. destruct H as (_ & _ & Hm & Hv & Hs & _).
  cbv zeta. split; [exact Hm |]. split; [exact (Hs 1 eq_refl) |].
  apply Hv. discriminate.
Defined.

(** ** Capture *)

Lemma capture_guard_noop (c : Closure) (now : Z) (s : State) :
  videoRef (refs s) = None \/ canvasRef (refs s) = None \/
  c_isAnalyzing c = false \/ c_isProcessing c = true ->
  processVideoFrame_begin c now s = (Fulfilled, s).
Proof.
  unfold processVideoFrame_begin.
  intros [Hv | [Hc | [Ha | Hp]]].
  - now rewrite Hv.
  - rewrite Hc. now destruct (videoRef (refs s)).
  - rewrite Ha. now destruct (videoRef (refs s)), (canvasRef (refs s)).
  - rewrite Hp, orb_true_r.
    now destruct (videoRef (refs s)), (canvasRef (refs s)).
Qed.

(** X6.  [processVideoFrame] does nothing at all, not even a console line,
    when the video or the canvas element is missing, or when its closure sees
    the session not analyzing or a capture in progress: the state it returns
    is the state it was given, with all cells, refs, timers, toasts and
    console lines. *)
Theorem capture_guard_is_silent (c : Closure) (now : Z) (s : State) :
  videoRef (refs s) = None \/ canvasRef (refs s) = None \/
  c_isAnalyzing c = false \/ c_isProcessing c = true ->
  fst (processVideoFrame_begin c now s) = Fulfilled /\
  snd (processVideoFrame_begin c now s) = s.
Proof.
  intros H. now rewrite (capture_guard_noop c now s H).
Qed.

Lemma capture_guard_is_silent_witness :
  fst (processVideoFrame_begin (render idle) 5000 started) = Fulfilled /\
  snd (processVideoFrame_begin (render idle) 5000 started) = started.
Proof.
  apply capture_guard_is_silent. right. right. left. reflexivity.
Defined.

(** The shape of a call that reaches the classifier. *)
Lemma capture_pending_inv (c : Closure) (now : Z) (s : State) :
  fst (processVideoFrame_begin c now s) = Pending ->
  exists v, videoRef (refs s) = Some v /\
            canvasRef (refs s) = Some (mkCanvas true) /\
            c_isAnalyzing c = true /\ c_isProcessing c = false /\
            1000 <= now - lastApiCallTimeRef (refs s).
Proof.
  unfold processVideoFrame_begin.
  destruct (videoRef (refs s)) as [v |]; [| discriminate].
  destruct (canvasRef (refs s)) as [[ctx] |]; [| discriminate].
  destruct (c_isAnalyzing c), (c_isProcessing c); cbn [negb orb];
    try discriminate.
  destruct (Z.ltb_spec (now - lastApiCallTimeRef (refs s)) 1000);
    [discriminate |].
  destruct (abortControllerRef (refs s)); cbn; destruct ctx; cbn;
    try discriminate; intros _; exists v; repeat split; assumption.
Qed.

Lemma capture_pending_time (c : Closure) (now : Z) (s : State) :
  fst (processVideoFrame_begin c now s) = Pending ->
  lastApiCallTimeRef (refs (snd (processVideoFrame_begin c now s))) = now.
Proof.
  intros Hp.
  destruct (capture_pending_inv c now s Hp) as (v & Hv & Hc & Ha & Hpr & Hge).
  unfold processVideoFrame_begin. rewrite Hv, Hc, Ha, Hpr. cbn [negb orb].
  destruct (Z.ltb_spec (now - lastApiCallTimeRef (refs s)) 1000); [lia |].
  destruct s as [r [t v0 cv m p l a] b]. destruct a; reflexivity.
Qed.

Lemma capture_pending_flag (c : Closure) (now : Z) (s : State) :
  fst (processVideoFrame_begin c now s) = Pending ->
  isProcessing (react (snd (processVideoFrame_begin c now s))) = true.
Proof.
  intros Hp.
  destruct (capture_pending_inv c now s Hp) as (v & Hv & Hc & Ha & Hpr & Hge).
  unfold processVideoFrame_begin. rewrite Hv, Hc, Ha, Hpr. cbn [negb orb].
  destruct (Z.ltb_spec (now - lastApiCallTimeRef (refs s)) 1000); [lia |].
  destruct s as [r [t v0 cv m p l a] b]. destruct a; reflexivity.
Qed.

(** X7.  When [processVideoFrame] reaches the classifier, at least 1000 ms
    have passed since the last attempt; the attempt time, the detection time
    and the countdown are reset; the processing flag is set; the token held
    before is aborted and a new one, numbered by the next free handle, is
    held; no toast is shown and the history is untouched.  The next call that
    reaches the classifier, whatever happens to the other cells in between,
    comes at least 1000 ms later. *)
Theorem capture_dispatch (c : Closure) (now : Z) (s : State) :
  fst (processVideoFrame_begin c now s) = Pending ->
  let s1 := snd (processVideoFrame_begin c now s) in
  1000 <= now - lastApiCallTimeRef (refs s) /\
  lastApiCallTimeRef (refs s1) = now /\
  lastDetectionTime (react s1) = now /\
  timerCount (react s1) = 3 /\
  isProcessing (react s1) = true /\
  abortControllerRef (refs s1) = Some (nextHandle (browser s)) /\
  (forall old, abortControllerRef (refs s) = Some old ->
               In old (abortedControllers (browser s1))) /\
  toasts (browser s1) = toasts (browser s) /\
  emotionHistory (react s1) = emotionHistory (react s) /\
  (forall c' now' s2,
     lastApiCallTimeRef (refs s2) = lastApiCallTimeRef (refs s1) ->
     fst (processVideoFrame_begin c' now' s2) = Pending ->
     now + 1000 <= now').
Proof.
  intros Hp. cbv zeta.
  pose proof (capture_pending_time c now s Hp) as Hlast.
  destruct (capture_pending_inv c now s Hp) as (v & Hv & Hc & Ha & Hpr & Hge).
  split; [exact Hge |]. split; [exact Hlast |].
  repeat match goal with |- _ /\ _ => split end.
  8: { intros c' now' s2 Hsame Hp2.
       destruct (capture_pending_inv c' now' s2 Hp2)
         as (_ & _ & _ & _ & _ & Hge2).
       rewrite Hsame, Hlast in Hge2. lia. }
  all: unfold processVideoFrame_begin; rewrite Hv, Hc, Ha, Hpr;
    cbn [negb orb];
    destruct (Z.ltb_spec (now - lastApiCallTimeRef (refs s)) 1000);
    [lia |];
    destruct s as [r [t v0 cv m p l a] b]; destruct a; cbn;
    try reflexivity;
    intros old Hold; inversion Hold; subst old;
    apply in_or_app; right; now left.
Qed.

Lemma capture_dispatch_witness :
  lastApiCallTimeRef (refs capturing) = 5000 /\
  isProcessing (react capturing) = true /\
  abortControllerRef (refs capturing) = Some 3.
Proof.
  pose proof (capture_dispatch (render started) 5000 started eq_refl) as H.
  cbv zeta in H. destruct H as (_ & Hl & _ & _ & Hp & Ha & _).
  exact (conj Hl (conj Hp Ha)).
Defined.

(** X8.  Single flight: once a call has reached the classifier, a call made
    from the render of any state whose processing flag is still set does
    nothing; in particular a call from the render of the state the first call
    left. *)
Theorem capture_single_flight (c : Closure) (now now' : Z) (s : State) :
  fst (processVideoFrame_begin c now s) = Pending ->
  let s1 := snd (processVideoFrame_begin c now s) in
  processVideoFrame_begin (render s1) now' s1 = (Fulfilled, s1) /\
  (forall s2, isProcessing (react s2) = true ->
              processVideoFrame_begin (render s2) now' s2 = (Fulfilled, s2)).
Proof.
  intros Hp. cbv zeta.
  assert (Hbusy : forall s2, isProcessing (react s2) = true ->
                  processVideoFrame_begin (render s2) now' s2 = (Fulfilled, s2)).
  { intros s2 H2. apply capture_guard_noop. right. right. right.
    exact H2. }
  split; [| exact Hbusy].
  apply Hbusy. now apply capture_pending_flag.
Qed.

Lemma capture_single_flight_witness :
  processVideoFrame_begin (render capturing) 9000 capturing =
  (Fulfilled, capturing).
Proof.
  exact (proj1 (capture_single_flight (render started) 5000 9000 started
                  eq_refl)).
Defined.

(** X9.  A canvas without a 2d context: the call passes the guard and the
    rate limit, aborts the token held before, and returns without a capture.
    The processing flag is cleared again and no token is held; the attempt
    time is not recorded, so the rate limit does not delay the next call;
    countdown, history, current emotion and toasts are untouched. *)
Theorem capture_without_context (c : Closure) (now : Z) (v : Video)
    (s : State) :
  videoRef (refs s) = Some v ->
  canvasRef (refs s) = Some (mkCanvas false) ->
  c_isAnalyzing c = true -> c_isProcessing c = false ->
  1000 <= now - lastApiCallTimeRef (refs s) ->
  let r := processVideoFrame_begin c now s in
  let s' := snd r in
  fst r = Fulfilled /\
  isProcessing (react s') = false /\
  abortControllerRef (refs s') = None /\
  (forall old, abortControllerRef (refs s) = Some old ->
               In old (abortedControllers (browser s'))) /\
  lastApiCallTimeRef (refs s') = lastApiCallTimeRef (refs s) /\
  timerCount (react s') = timerCount (react s) /\
  emotionHistory (react s') = emotionHistory (react s) /\
  currentEmotion (react s') = currentEmotion (react s) /\
  toasts (browser s') = toasts (browser s) /\
  console (browser s') = console (browser s).
Proof.
  intros Hv Hc Ha Hp Hge. cbv zeta.
  unfold processVideoFrame_begin. rewrite Hv, Hc, Ha, Hp. cbn [negb orb].
  destruct (Z.ltb_spec (now - lastApiCallTimeRef (refs s)) 1000); [lia |].
  destruct s as [r [t v0 cv m p l a] b]. destruct a; cbn; repeat split;
    try (intros old Hold; inversion Hold; subst old;
         apply in_or_app; right; now left);
    try (intros old Hold; discriminate Hold).
Qed.

Lemma capture_without_context_witness :
  let blind := Upd.on_refs (Upd.canvasRef' (Some (mkCanvas false))) started in
  fst (processVideoFrame_begin (render started) 5000 blind) = Fulfilled /\
  isProcessing (react (snd (processVideoFrame_begin (render started) 5000 blind)))
  = false.
Proof.
  pose proof (capture_without_context (render started) 5000 (mkVideo (Some 1))
                (Upd.on_refs (Upd.canvasRef' (Some (mkCanvas false))) started)
                eq_refl eq_refl eq_refl eq_refl ltac:(vm_compute; discriminate))
    as H.
  cbv zeta in H. destruct H as (Hf & Hp & _). exact (conj Hf Hp).
Defined.



(** X11.  The promise of [processVideoFrame] is never rejected, neither
    before the classifier call nor after it, whatever the classifier answers;
    so the [catch] handlers of [updateTimer] and [startAnalysis], which would
    force an update, leave the state as it is. *)
Theorem catch_handler_never_forces (c c' : Closure) (o : ClassifierOutcome)
    (d d' : Draws) (now now' : Z) (s s' : State) :
  fst (processVideoFrame_begin c now s) <> Rejected /\
  fst (updateTimer c now s) <> Rejected /\
  fst (captureResume o d now s) = Fulfilled /\
  catchForceUpdate (fst (processVideoFrame_begin c now s)) c' (dLabel d')
    (dScore d') (dStress d') (dEngagement d') (dFocus d') now' s' = s' /\
  catchForceUpdate (fst (updateTimer c now s)) c' (dLabel d') (dScore d')
    (dStress d') (dEngagement d') (dFocus d') now' s' = s' /\
  catchForceUpdate (fst (captureResume o d now s)) c' (dLabel d') (dScore d')
    (dStress d') (dEngagement d') (dFocus d') now' s' = s'.
Proof.
  destruct (processVideoFrame_never_rejects c o d now s) as [Hb Hr].
  assert (Ht : fst (updateTimer c now s) <> Rejected).
  { unfold updateTimer. destruct (Z.leb (timerCount (react s)) 1);
      [| discriminate].
    destruct (processVideoFrame_begin c now s) as [p s0]. exact Hb. }
  repeat split; try assumption.
  - revert Hb. destruct (fst (processVideoFrame_begin c now s));
      intros Hb; [reflexivity | reflexivity | now contradiction Hb].
  - revert Ht. destruct (fst (updateTimer c now s));
      intros Ht; [reflexivity | reflexivity | now contradiction Ht].
  - now rewrite Hr.
Qed.

(** ** Countdown and tick timer *)

(** A step leaves the countdown alone, resets it to 3, or takes 1 from a
    value above 1. *)
Lemma step_timerCount (s s' : State) :
  step s s' ->
  timerCount (react s') = timerCount (react s) \/
  timerCount (react s') = 3 \/
  (1 < timerCount (react s) /\
   timerCount (react s') = timerCount (react s) - 1).
Proof.
  intros Hstep. destruct Hstep.
  - left. unfold startAnalysis_begin, requestCameraPermission_begin,
      releaseStream, setSrcObject.
    destruct s as [r [t v cv m p l a] b]. destruct m, v; reflexivity.
  - left. unfold requestCameraPermission_resume, setSrcObject.
    destruct s as [r [t v cv m p l a] b]. destruct answer, v; reflexivity.
  - left. unfold startAnalysis_mic, requestMicPermission_resume,
      requestMicPermission_begin.
    destruct (c_micPermission c) as [[|] |], mic; reflexivity.
  - left. unfold startAnalysis_finish.
    destruct (hasCamera && hasMic); [| reflexivity].
    destruct (negb (truthy (c_currentEmotion c))); metrics_out;
      destruct (timerIntervalRef (refs s)) eqn:Hr; cbn; rewrite Hr;
      reflexivity.
  - left. now rewrite stopAnalysis_react.
  - unfold processVideoFrame_begin, processVideoFrame_finally.
    destruct s as [r [t v cv m p l a] b]. hook_cases; auto.
  - left. unfold captureResume, processVideoFrame_resume.
    destruct o as [e q |]; metrics_out; [| reflexivity].
    unfold showEmotionalSupportPopup. split_ifs; reflexivity.
  - left. unfold forceUpdate, forceEmotionUpdate.
    destruct (c_isAnalyzing c); [| reflexivity]. metrics_out. reflexivity.
  - unfold updateTimer.
    destruct (Z.leb_spec (timerCount (react s)) 1).
    + right. left. now destruct (processVideoFrame_begin c now s).
    + right. right. split; [lia | reflexivity].
  - now left.
  - unfold processVideoFrame_begin, processVideoFrame_finally.
    destruct s as [r [tr v cv m p l a] b]. hook_cases; auto.
  - now left.
  - now left.
  - now left.
  - left. unfold unmountCleanup.
    destruct s as [r [t v cv m p l a] b]. destruct t, m, p, a; reflexivity.
Qed.

(** X12.  In every reachable state the countdown is 3, 2 or 1: it is reset
    to 3 by the tick that finds it at 1 and by every capture that reaches the
    classifier, and it never shows 0. *)
Theorem countdown_stays_in_range (s : State) :
  reachable s -> countdownInRange s.
Proof.
  unfold countdownInRange. induction 1 as [v cv | s s' _ IH Hstep].
  - cbn. lia.
  - destruct (step_timerCount s s' Hstep) as [-> | [-> | [Hgt ->]]]; lia.
Qed.

Lemma reachable_started : reachable started.
Proof. apply reachable_startAnalysis. apply reach_init. Qed.

Lemma countdown_stays_in_range_witness : countdownInRange started.
Proof. exact (countdown_stays_in_range started reachable_started). Defined.

(** X13.  From a countdown of 3, two ticks only count down, to 2 and to 1,
    whatever their closures; the third tick calls [processVideoFrame] and
    resets the countdown to 3. *)
Theorem countdown_three_ticks (c1 c2 c3 : Closure) (n1 n2 n3 : Z)
    (s : State) :
  timerCount (react s) = 3 ->
  let t1 := updateTimer c1 n1 s in
  let t2 := updateTimer c2 n2 (snd t1) in
  let t3 := updateTimer c3 n3 (snd t2) in
  (fst t1 = Fulfilled /\ snd t1 = setTimerCount 2 s) /\
  (fst t2 = Fulfilled /\ snd t2 = setTimerCount 1 s) /\
  (fst t3 = fst (processVideoFrame_begin c3 n3 (setTimerCount 1 s)) /\
   snd t3 =
     setTimerCount 3 (snd (processVideoFrame_begin c3 n3 (setTimerCount 1 s)))).
Proof.
  intros H3. cbv zeta.
  assert (E1 : updateTimer c1 n1 s = (Fulfilled, setTimerCount 2 s)).
  { unfold updateTimer. rewrite H3. reflexivity. }
  rewrite E1. cbn [fst snd].
  assert (E2 : updateTimer c2 n2 (setTimerCount 2 s) =
               (Fulfilled, setTimerCount 1 s)) by reflexivity.
  rewrite E2. cbn [fst snd].
  split; [now split |]. split; [now split |].
  unfold updateTimer. cbn [timerCount react setTimerCount Upd.on_react
                           Upd.timerCount' Z.leb Z.compare].
  destruct (processVideoFrame_begin c3 n3 (setTimerCount 1 s)).
  now split.
Qed.

Lemma countdown_three_ticks_witness :
  let t1 := updateTimer (render started) 2000 started in
  let t2 := updateTimer (render started) 3000 (snd t1) in
  let t3 := updateTimer (render started) 4000 (snd t2) in
  timerCount (react (snd t1)) = 2 /\ timerCount (react (snd t2)) = 1 /\
  fst t3 = Pending /\ timerCount (react (snd t3)) = 3.
Proof.
  pose proof (countdown_three_ticks (render started) (render started)
                (render started) 2000 3000 4000 started eq_refl) as H.
  cbv zeta in H. destruct H as ((_ & E1) & (_ & E2) & (E3 & E4)).
  cbv zeta. rewrite E4, E3, E2, E1. repeat split.
Defined.

(** X14.  A tick whose closure sees the session not analyzing, such as the
    ticks of an interval created by a start from a render that was not
    analyzing, only moves the countdown: no capture, no event, no toast. *)
Theorem tick_of_idle_closure_only_counts (c : Closure) (now : Z) (s : State) :
  c_isAnalyzing c = false ->
  updateTimer c now s =
  (Fulfilled,
   setTimerCount
     (if Z.leb (timerCount (react s)) 1 then 3 else timerCount (react s) - 1)
     s).
Proof.
  intros Hc. unfold updateTimer.
  rewrite (capture_guard_noop c now s) by tauto.
  now destruct (Z.leb (timerCount (react s)) 1).
Qed.

Lemma tick_of_idle_closure_only_counts_witness :
  updateTimer (render idle) 2000 started = (Fulfilled, setTimerCount 2 started).
Proof.
  exact (tick_of_idle_closure_only_counts (render idle) 2000 started eq_refl).
Defined.

Lemma step_oneInterval (s s' : State) :
  step s s' -> timerInvariant s -> oneIntervalAtMost s ->
  oneIntervalAtMost s'.
Proof.
  unfold oneIntervalAtMost. intros Hstep [Hi _] Hone.
  assert (Hview : forall x, timerView x = timerView s ->
                  (List.length (intervals (browser x)) <= 1)%nat).
  { intros x Hx. unfold timerView in Hx. injection Hx as _ _ ->. exact Hone. }
  destruct Hstep.
  - apply Hview, startAnalysis_begin_views.
  - apply Hview, camera_answer_views.
  - apply Hview, mic_views.
  - unfold startAnalysis_finish.
    destruct (hasCamera && hasMic); [| exact Hone].
    destruct (negb (truthy (c_currentEmotion c))); metrics_out;
      destruct (timerIntervalRef (refs s)) as [h |] eqn:Hr; cbn; rewrite Hr;
      cbn; try exact Hone;
      (destruct (intervals (browser s)) as [| i rest];
       [cbn; lia | specialize (Hi i (or_introl eq_refl)); discriminate Hi]).
  - pose proof (stopAnalysis_browser s) as B. cbv zeta in B.
    destruct B as (_ & _ & -> & _).
    destruct (timerIntervalRef (refs s)); [| exact Hone].
    etransitivity; [apply filter_length_le | exact Hone].
  - apply Hview, capture_begin_views.
  - apply Hview, capture_resume_timerView.
  - apply Hview, force_views.
  - apply Hview, updateTimer_views.
  - apply Hview, fireHidePopup_timerView.
  - apply Hview.
    destruct (capture_begin_views c now (window_clearTimeout (handle t) s))
      as [-> _].
    apply clearTimeout_timerView.
  - now apply Hview.
  - now apply Hview.
  - now apply Hview.
  - unfold unmountCleanup. destruct s as [r [t v cv m p l a] b].
    cbn in *. destruct t, m, p, a; cbn; try exact Hone;
      (etransitivity; [apply filter_length_le | exact Hone]).
Qed.

(** X15.  In every reachable state at most one tick interval runs, and it
    is the one [timerIntervalRef] holds: starting again while a timer is held
    does not add a second one. *)
Theorem one_tick_timer_at_most (s : State) :
  reachable s ->
  oneIntervalAtMost s /\
  (forall i, In i (intervals (browser s)) ->
             timerIntervalRef (refs s) = Some i).
Proof.
  intros Hr. split; [| exact (proj1 (proj1 (reachable_invariants s Hr)))].
  induction Hr as [v cv | s s' Hr IH Hstep].
  - unfold oneIntervalAtMost. cbn. lia.
  - apply (step_oneInterval s s' Hstep); [| exact IH].
    exact (proj1 (reachable_invariants s Hr)).
Qed.

Lemma one_tick_timer_at_most_witness :
  oneIntervalAtMost
    (startAnalysis (render started) (Some 5) true 0 0 0 3000 started).
Proof.
  exact (proj1 (one_tick_timer_at_most _
                  (reachable_startAnalysis (render started) (Some 5) true
                     0 0 0 3000 started reachable_started))).
Defined.

(** ** Popup timeout *)

Lemma filter_filter_length {A : Type} (f g : A -> bool) (l : list A) :
  (List.length (filter f (filter g l)) <= List.length (filter f l))%nat.
Proof.
  induction l as [| a l IH]; [cbn; lia |].
  cbn [filter]. destruct (g a); cbn [filter]; destruct (f a);
    cbn [List.length]; lia.
Qed.

Lemma showPopup_onePopup (e : string) (now : Z) (s : State) :
  popupTimeoutsTracked s ->
  onePopupTimeoutAtMost (showEmotionalSupportPopup e now s).
Proof.
  intros Htr. unfold onePopupTimeoutAtMost.
  destruct (showPopup_timer e now s) as (_ & _ & ->).
  rewrite filter_app, (filter_none _ _ (pendingAfterClear_no_popup s Htr)).
  cbn. lia.
Qed.

Lemma step_onePopup (s s' : State) :
  step s s' -> popupTimeoutsTracked s -> onePopupTimeoutAtMost s ->
  onePopupTimeoutAtMost s'.
Proof.
  unfold onePopupTimeoutAtMost. intros Hstep Htr Hone.
  assert (Hview : forall x, popupTimerView x = popupTimerView s ->
                  (List.length (filter isHidePopup (timeouts (browser x)))
                   <= 1)%nat).
  { intros x Hx. unfold popupTimerView in Hx. injection Hx as _ ->.
    exact Hone. }
  destruct Hstep.
  - apply Hview, startAnalysis_begin_views.
  - apply Hview, camera_answer_views.
  - apply Hview, mic_views.
  - unfold startAnalysis_finish.
    destruct (hasCamera && hasMic); [| exact Hone].
    destruct (negb (truthy (c_currentEmotion c))); metrics_out;
      destruct (timerIntervalRef (refs s)) as [h |] eqn:Hr; cbn; rewrite Hr;
      cbn; rewrite filter_app; cbn; rewrite app_nil_r; exact Hone.
  - pose proof (stopAnalysis_browser s) as B. cbv zeta in B.
    destruct B as (_ & -> & _). exact Hone.
  - apply Hview, capture_begin_views.
  - unfold captureResume, processVideoFrame_resume.
    destruct o as [e q |]; metrics_out; [| exact Hone].
    destruct ((e =? "stressed") || (e =? "sad")); [| exact Hone].
    match goal with
    | |- context [showEmotionalSupportPopup ?e ?n ?s0] =>
      assert (H0 : popupTimeoutsTracked s0) by exact Htr;
      pose proof (showPopup_onePopup e n s0 H0) as H1
    end.
    exact H1.
  - apply Hview, force_views.
  - apply Hview, updateTimer_views.
  - cbn. etransitivity; [apply filter_filter_length | exact Hone].
  - destruct (capture_begin_views c now (window_clearTimeout (handle t) s))
      as [_ Hp].
    unfold popupTimerView in Hp. injection Hp as _ ->.
    cbn. etransitivity; [apply filter_filter_length | exact Hone].
  - exact Hone.
  - exact Hone.
  - exact Hone.
  - unfold unmountCleanup. destruct s as [r [t v cv m p l a] b].
    cbn in *. destruct t, m, p, a; cbn; try exact Hone;
      (etransitivity; [apply filter_filter_length | exact Hone]).
Qed.

(** X16.  In every reachable state at most one auto-dismiss of the popup is
    pending, and it is the one [popupTimeoutRef] holds: a new trigger never
    leaves an earlier auto-dismiss behind. *)
Theorem one_popup_timeout_at_most (s : State) :
  reachable s ->
  onePopupTimeoutAtMost s /\ popupTimeoutsTracked s.
Proof.
  intros Hr. split; [| exact (proj2 (reachable_invariants s Hr))].
  induction Hr as [v cv | s s' Hr IH Hstep].
  - unfold onePopupTimeoutAtMost. cbn. lia.
  - apply (step_onePopup s s' Hstep); [| exact IH].
    exact (proj2 (reachable_invariants s Hr)).
Qed.

Lemma reachable_capturing : reachable capturing.
Proof.
  exact (reach_step _ _ reachable_started
           (step_capture_begin (render started) 5000 started)).
Qed.

Lemma reachable_captured : reachable captured.
Proof.
  exact (reach_step _ _ reachable_capturing
           (step_capture_resume (ApiResolved "happy" 0.9%Q) zeroDraws 5300
              capturing)).
Qed.

Lemma reachable_saddened : reachable saddened.
Proof.
  exact (reach_step _ _ reachable_capturing
           (step_capture_resume (ApiResolved "sad" 0.9%Q) zeroDraws 5300
              capturing)).
Qed.

Lemma one_popup_timeout_at_most_witness :
  onePopupTimeoutAtMost saddened /\
  filter isHidePopup (timeouts (browser saddened)) =
    [mkTimeout 4 13300 HidePopup].
Proof.
  split; [| reflexivity].
  exact (proj1 (one_popup_timeout_at_most saddened reachable_saddened)).
Defined.

(** X17.  After one trigger at [now], with nothing else happening, the popup
    state does not change before [now + 8000]; from then on the popup is
    hidden, no auto-dismiss is held or pending, and the shown-emotion cell
    still holds the emotion: the auto-dismiss resets the visibility only. *)
Theorem popup_auto_hides (e : string) (now t : Z) (s : State) :
  popupTimeoutsTracked s ->
  let s1 := showEmotionalSupportPopup e now s in
  let s2 := elapsePopup t s1 in
  (t < now + 8000 ->
   s2 = s1 /\ showEmotionPopup (react s2) = true /\
   popupEmotion (react s2) = Some e) /\
  (now + 8000 <= t ->
   showEmotionPopup (react s2) = false /\
   popupEmotion (react s2) = Some e /\
   popupTimeoutRef (refs s2) = None /\
   filter isHidePopup (timeouts (browser s2)) = []).
Proof.
  intros Htr. cbv zeta.
  rewrite (elapse_after_trigger e now t s Htr).
  destruct (showPopup_visible e now s) as [Hv He].
  destruct (Z.leb_spec (now + 8000) t); split; intros Ht; try lia.
  - exact (fired_popup_hidden e now s Htr).
  - repeat split; assumption.
Qed.

Lemma popup_auto_hides_witness :
  showEmotionPopup
    (react (elapsePopup 13000
              (showEmotionalSupportPopup "sad" 5000 started))) = false /\
  popupEmotion
    (react (elapsePopup 13000
              (showEmotionalSupportPopup "sad" 5000 started))) = Some "sad".
Proof.
  pose proof (popup_auto_hides "sad" 5000 13000 started started_tracked) as H.
  cbv zeta in H. destruct H as (_ & H).
  destruct (H ltac:(lia)) as (Hv & He & _). exact (conj Hv He).
Defined.

(** ** Unmounting *)

(** X18.  The cleanup that runs on unmount, from any reachable state, leaves
    no tick interval running and no auto-dismiss of the popup pending, stops
    the held stream and aborts the held token.  It writes no React cell,
    nulls no ref, shows no toast and logs nothing; a pending timeout other
    than the held auto-dismiss, such as the first capture of a start, stays
    pending. *)
Theorem unmount_cleanup_releases (s : State) :
  reachable s ->
  let s' := unmountCleanup s in
  intervals (browser s') = [] /\
  filter isHidePopup (timeouts (browser s')) = [] /\
  (forall st, mediaStreamRef (refs s) = Some st ->
              In st (stoppedStreams (browser s'))) /\
  (forall h, abortControllerRef (refs s) = Some h ->
             In h (abortedControllers (browser s'))) /\
  react s' = react s /\
  refs s' = refs s /\
  toasts (browser s') = toasts (browser s) /\
  console (browser s') = console (browser s) /\
  (forall x, In x (timeouts (browser s)) ->
             popupTimeoutRef (refs s) <> Some (handle x) ->
             In x (timeouts (browser s'))).
Proof.
  intros Hr. cbv zeta.
  destruct (reachable_invariants s Hr) as [[Hi _] Htr].
  unfold popupTimeoutsTracked in Htr.
  assert (Hint : match timerIntervalRef (refs s) with
                 | Some h =>
                   filter (fun i => negb (Z.eqb i h)) (intervals (browser s))
                 | None => intervals (browser s)
                 end = []).
  { destruct (timerIntervalRef (refs s)) as [h |] eqn:Hr0.
    - apply filter_none. intros y Hy. specialize (Hi y Hy).
      injection Hi as ->. now rewrite Z.eqb_refl.
    - destruct (intervals (browser s)) as [| i rest]; [reflexivity |].
      specialize (Hi i (or_introl eq_refl)). discriminate Hi. }
  assert (Hpop : filter isHidePopup
                   match popupTimeoutRef (refs s) with
                   | Some h =>
                     filter (fun x => negb (Z.eqb (handle x) h))
                       (timeouts (browser s))
                   | None => timeouts (browser s)
                   end = []).
  { apply filter_none. intros y Hy. unfold isHidePopup.
    destruct (action y) eqn:Ha; [| reflexivity]. exfalso.
    destruct (popupTimeoutRef (refs s)) as [h |] eqn:Hp.
    - apply filter_In in Hy. destruct Hy as [Hy Hne].
      specialize (Htr y Hy Ha). injection Htr as ->.
      rewrite Z.eqb_refl in Hne. discriminate Hne.
    - specialize (Htr y Hy Ha). discriminate Htr. }
  unfold unmountCleanup. destruct s as [r [t v cv m p l a] b].
  cbn in Hint, Hpop |- *. clear Hi Htr Hr.
  destruct t, m, p, a; cbn in *;
    repeat match goal with |- _ /\ _ => split end;
    try assumption; try reflexivity;
    try (intros y Hy; inversion Hy; subst y; apply in_or_app; right;
         now left);
    try (intros y Hy; discriminate Hy);
    try (intros x Hx Hne;
         first [ exact Hx
               | apply filter_In; split; [exact Hx |];
                 apply negb_true_iff, Z.eqb_neq; intros E; apply Hne;
                 now rewrite E ]).
Qed.

Lemma unmount_cleanup_releases_witness :
  intervals (browser (unmountCleanup saddened)) = [] /\
  timeouts (browser (unmountCleanup saddened)) =
    [mkTimeout 1 2000 FirstCapture] /\
  In 1 (stoppedStreams (browser (unmountCleanup saddened))).
Proof.
  pose proof (unmount_cleanup_releases saddened reachable_saddened) as H.
  cbv zeta in H. destruct H as (Hi & _ & Hs & _).
  split; [exact Hi |]. split; [reflexivity |]. exact (Hs 1 eq_refl).
Defined.

(** ** History and metrics over the whole hook *)

(** X19.  In every reachable state the history holds at most 12 events,
    and a step of the hook, whichever it is, leaves the history as it is,
    appends one event to it (dropping the oldest beyond 12), or, when a start
    seeds, replaces it by one event: no step reorders or edits recorded
    events. *)
Theorem history_bounded_append_only (s s' : State) :
  reachable s -> step s s' ->
  historyBounded s /\ historyBounded s' /\
  (emotionHistory (react s') = emotionHistory (react s) \/
   (exists ev,
      emotionHistory (react s') = appendEvent ev (emotionHistory (react s))) \/
   (exists ev, emotionHistory (react s') = [ev])).
Proof.
  intros Hr Hstep. split; [now apply reachable_historyBounded |].
  split; [| now apply step_history].
  apply reachable_historyBounded. exact (reach_step s s' Hr Hstep).
Qed.

Lemma history_bounded_append_only_witness :
  historyBounded capturing /\ historyBounded captured /\
  List.length (emotionHistory (react captured)) = 2%nat.
Proof.
  pose proof (history_bounded_append_only capturing captured
                reachable_capturing
                (step_capture_resume (ApiResolved "happy" 0.9%Q) zeroDraws
                   5300 capturing)) as H.
  destruct H as (H1 & H2 & _). split; [exact H1 |]. split; [exact H2 |].
  reflexivity.
Defined.

Lemma band_limits (e : string) :
  (5 <= fst (specStressBand e) /\ snd (specStressBand e) <= 99) /\
  (15 <= fst (specEngagementBand e) /\ snd (specEngagementBand e) <= 99) /\
  (15 <= fst (codeFocusBand e) /\ snd (codeFocusBand e) <= 99).
Proof.
  unfold specStressBand, specEngagementBand, codeFocusBand, specFocusBand.
  split_on_label e; cbn; lia.
Qed.

(** X20.  For every label, known or not, and draws in [0, 1),
    [updateMetricsBasedOnEmotion] writes a stress value in 5-99 and
    engagement and focus values in 15-99, so each metric is a percentage
    and never 0 or 100; it writes these three cells and nothing else. *)
Theorem metrics_update_local_percent (e : string) (rS rE rF : Q) (s : State) :
  unit_draw rS -> unit_draw rE -> unit_draw rF ->
  let s' := updateMetricsBasedOnEmotion e rS rE rF s in
  5 <= stressLevel (react s') <= 99 /\
  15 <= engagementLevel (react s') <= 99 /\
  15 <= focusLevel (react s') <= 99 /\
  react s' =
    Upd.focusLevel' (focusLevel (react s'))
      (Upd.engagementLevel' (engagementLevel (react s'))
         (Upd.stressLevel' (stressLevel (react s')) (react s))) /\
  refs s' = refs s /\
  browser s' = browser s.
Proof.
  intros HS HE HF. cbv zeta.
  pose proof (stressLevel_band e rS rE rF s HS) as BS.
  pose proof (engagementLevel_band e rS rE rF s HE) as BE.
  pose proof (focusLevel_band e rS rE rF s HF) as BF.
  destruct (band_limits e) as ((S1 & S2) & (E1 & E2) & (F1 & F2)).
  unfold in_band in BS, BE, BF.
  split; [lia |]. split; [lia |]. split; [lia |].
  destruct (updateMetrics_writes e rS rE rF s) as (x & y & z & ->).
  repeat split.
Qed.

Lemma metrics_update_local_percent_witness :
  5 <= stressLevel (react (updateMetricsBasedOnEmotion "bored" 0 0 0 idle))
    <= 99.
Proof.
  exact (proj1 (metrics_update_local_percent "bored" 0 0 0 idle
                  unit_draw_0 unit_draw_0 unit_draw_0)).
Defined.

(** X21.  The fallback after a classifier failure never makes "bored" the
    current emotion, whatever the draw: it picks among six labels.  A forced
    update picks among seven and can: the draw 6/7 selects "bored". *)
Theorem fallback_never_bored (c : Closure) (d : Draws) (now : Z) (s : State) :
  unit_draw (dLabel d) -> c_isAnalyzing c = true ->
  let viaFallback := snd (captureResume ApiFailed d now s) in
  let viaForce :=
    forceUpdate c
      (mkDraws (6 # 7) (dScore d) (dStress d) (dEngagement d) (dFocus d))
      now s in
  (exists e, currentEmotion (react viaFallback) = Some e /\
             In e dummyEmotions6 /\ e <> "bored") /\
  unit_draw (6 # 7) /\
  currentEmotion (react viaForce) = Some "bored".
Proof.
  intros HL Hc. cbv zeta. split; [| split].
  - exists (fallbackLabel (dLabel d)). split; [| split].
    + unfold captureResume, processVideoFrame_resume. metrics_out.
      reflexivity.
    + now apply fallbackLabel_in.
    + now apply fallbackLabel_not_bored.
  - unfold unit_draw. lra.
  - unfold forceUpdate, forceEmotionUpdate. rewrite Hc. cbn [negb].
    metrics_out. reflexivity.
Qed.

Lemma fallback_never_bored_witness :
  currentEmotion
    (react (forceUpdate (render started) (mkDraws (6 # 7) 0 0 0 0) 5000
              started)) = Some "bored".
Proof.
  exact (proj2 (proj2 (fallback_never_bored (render started) zeroDraws 5000
                         started unit_draw_0 eq_refl))).
Defined.
